(** * codeintel-timing-attack-analyzer: the instrumenter and the harness

    A shallow embedding of [src/main.py]: the syntax tree the instrumenter
    rewrites ([TimingVisitor]), the derived artifact name
    ([os.path.splitext]), and the effectful functions [instrument_code],
    [run_analysis], [check_dependencies] and [main], written in a small
    state-and-exception monad over an explicit model of the file system,
    the child processes and the logger. *)

From Stdlib Require Import ZArith String Ascii List Bool Lia.
From Stdlib Require Import Floats.PrimFloat.
From stdpp Require Import gmap strings list pretty.

Set Warnings "-register-all".

Local Open Scope string_scope.
Local Open Scope Z_scope.

(** ** Syntax model

    The part of Python's abstract grammar ([ast]) that matters to the
    visitor: every statement kind that carries a list of statements, the
    simple statements the probe is made of, and the expressions the probe
    is made of.  Expressions never contain statements, so the traversal
    leaves them as they are. *)

Module Ast.

Inductive expr_context := Load | Store.

Inductive operator := Add | Sub | Mult | Div.

Inductive constant :=
| ConstNone
| ConstBool (b : bool)
| ConstInt (z : Z)
| ConstStr (s : string).

Inductive expr :=
| Name (id : string) (ctx : expr_context)
| Constant (value : constant)
| BinOp (lhs : expr) (op : operator) (rhs : expr)
| Call (func : expr) (args : list expr) (keywords : list (string * expr))
| Attribute (value : expr) (attr : string) (ctx : expr_context)
| Lambda (args : list string) (body : expr).

(** [arguments] is kept as the list of parameter names. *)
Inductive stmt :=
| FunctionDef (name : string) (args : list string) (body : list stmt)
    (decorator_list : list expr)
| AsyncFunctionDef (name : string) (args : list string) (body : list stmt)
    (decorator_list : list expr)
| ClassDef (name : string) (bases : list expr) (body : list stmt)
    (decorator_list : list expr)
| Return (value : option expr)
| Assign (targets : list expr) (value : expr)
| Expr (value : expr)
| For (target iter : expr) (body orelse : list stmt)
| While (test : expr) (body orelse : list stmt)
| If (test : expr) (body orelse : list stmt)
| With (items : list expr) (body : list stmt)
| Try (body : list stmt) (handlers : list excepthandler)
    (orelse finalbody : list stmt)
| Import (names : list string)
| Pass
with excepthandler :=
| ExceptHandler (type : option expr) (name : option string) (body : list stmt).

Inductive mod_ :=
| Module (body : list stmt).

End Ast.
Export Ast.

(** ** Induction over statements

    The generated principle says nothing about the statements in the
    bodies; this one gives the hypothesis for each of them. *)

Section StmtInduction.

Variable P : stmt -> Prop.
Variable Q : excepthandler -> Prop.

Hypothesis P_FunctionDef : forall name args body ds,
  Forall P body -> P (FunctionDef name args body ds).
Hypothesis P_AsyncFunctionDef : forall name args body ds,
  Forall P body -> P (AsyncFunctionDef name args body ds).
Hypothesis P_ClassDef : forall name bases body ds,
  Forall P body -> P (ClassDef name bases body ds).
Hypothesis P_Return : forall value, P (Return value).
Hypothesis P_Assign : forall targets value, P (Assign targets value).
Hypothesis P_Expr : forall value, P (Expr value).
Hypothesis P_For : forall target iter body orelse,
  Forall P body -> Forall P orelse -> P (For target iter body orelse).
Hypothesis P_While : forall test body orelse,
  Forall P body -> Forall P orelse -> P (While test body orelse).
Hypothesis P_If : forall test body orelse,
  Forall P body -> Forall P orelse -> P (If test body orelse).
Hypothesis P_With : forall items body,
  Forall P body -> P (With items body).
Hypothesis P_Try : forall body handlers orelse finalbody,
  Forall P body -> Forall Q handlers -> Forall P orelse ->
  Forall P finalbody -> P (Try body handlers orelse finalbody).
Hypothesis P_Import : forall names, P (Import names).
Hypothesis P_Pass : P Pass.
Hypothesis Q_ExceptHandler : forall type name body,
  Forall P body -> Q (ExceptHandler type name body).

Fixpoint stmt_nested_ind (s : stmt) : P s :=
  let all :=
    fix all (l : list stmt) : Forall P l :=
      match l with
      | [] => @List.Forall_nil _ P
      | x :: l' => @List.Forall_cons _ P x l' (stmt_nested_ind x) (all l')
      end in
  let all_handlers :=
    fix all_handlers (l : list excepthandler) : Forall Q l :=
      match l with
      | [] => @List.Forall_nil _ Q
      | h :: l' => @List.Forall_cons _ Q h l' (handler_nested_ind h) (all_handlers l')
      end in
  match s with
  | FunctionDef name args body ds => P_FunctionDef name args body ds (all body)
  | AsyncFunctionDef name args body ds =>
      P_AsyncFunctionDef name args body ds (all body)
  | ClassDef name bases body ds => P_ClassDef name bases body ds (all body)
  | Return value => P_Return value
  | Assign targets value => P_Assign targets value
  | Expr value => P_Expr value
  | For target iter body orelse =>
      P_For target iter body orelse (all body) (all orelse)
  | While test body orelse =>
      P_While test body orelse (all body) (all orelse)
  | If test body orelse => P_If test body orelse (all body) (all orelse)
  | With items body => P_With items body (all body)
  | Try body handlers orelse finalbody =>
      P_Try body handlers orelse finalbody (all body) (all_handlers handlers)
        (all orelse) (all finalbody)
  | Import names => P_Import names
  | Pass => P_Pass
  end
with handler_nested_ind (h : excepthandler) : Q h :=
  match h with
  | ExceptHandler type name body =>
      Q_ExceptHandler type name body
        ((fix all (l : list stmt) : Forall P l :=
            match l with
            | [] => @List.Forall_nil _ P
            | x :: l' => @List.Forall_cons _ P x l' (stmt_nested_ind x) (all l')
            end) body)
  end.

End StmtInduction.

(** ** The visitor of [instrument_code] *)

(** [l.insert(0, x)] *)
Definition insert_0 {A} (x : A) (l : list A) : list A := x :: l.

Module TimingVisitor.

(** [visit_FunctionDef]: builds the four statements, inserts them at index
    0 in reverse order and returns the node.  It does not call
    [generic_visit], so the children of the node are not visited.
    [ast.Str(s=...)] is the string [Constant]; the [annotation] attribute
    set on each target is no field of [Name] and is left out. *)
Definition visit_FunctionDef (name : string) (args : list string)
    (body : list stmt) (decorator_list : list expr) : stmt :=
  let start_time :=
    Assign [Name "start_time" Store] (Call (Name "time" Load) [] []) in
  let end_time :=
    Assign [Name "end_time" Store] (Call (Name "time" Load) [] []) in
  let duration :=
    Assign [Name "duration" Store]
      (BinOp (Name "end_time" Load) Sub (Name "start_time" Load)) in
  let print_statement :=
    Expr (Call (Attribute (Name "print" Load) "print" Load)
            [Constant (ConstStr ("Function " +:+ name +:+ " took: "));
             Name "duration" Load] []) in
  let body := insert_0 print_statement body in
  let body := insert_0 duration body in
  let body := insert_0 end_time body in
  let body := insert_0 start_time body in
  FunctionDef name args body decorator_list.

(** [visit]: dispatch on the node's class; [FunctionDef] has a method of
    its own, every other class falls to [NodeTransformer.generic_visit],
    which visits each child node and stores the result back. *)
Fixpoint visit (node : stmt) : stmt :=
  match node with
  | FunctionDef name args body decorator_list =>
      visit_FunctionDef name args body decorator_list
  | AsyncFunctionDef name args body decorator_list =>
      AsyncFunctionDef name args (map visit body) decorator_list
  | ClassDef name bases body decorator_list =>
      ClassDef name bases (map visit body) decorator_list
  | Return value => Return value
  | Assign targets value => Assign targets value
  | Expr value => Expr value
  | For target iter body orelse =>
      For target iter (map visit body) (map visit orelse)
  | While test body orelse =>
      While test (map visit body) (map visit orelse)
  | If test body orelse =>
      If test (map visit body) (map visit orelse)
  | With items body => With items (map visit body)
  | Try body handlers orelse finalbody =>
      Try (map visit body) (map visit_handler handlers)
        (map visit orelse) (map visit finalbody)
  | Import names => Import names
  | Pass => Pass
  end
with visit_handler (h : excepthandler) : excepthandler :=
  match h with
  | ExceptHandler type name body => ExceptHandler type name (map visit body)
  end.

(** [TimingVisitor().visit(tree)] on the [Module] node. *)
Definition visit_tree (tree : mod_) : mod_ :=
  match tree with
  | Module body => Module (map visit body)
  end.

End TimingVisitor.

(** ** [os.path.splitext] (POSIX: [sep = "/"], no [altsep], [extsep = "."]) *)

Module OsPath.

(** [p.rfind(c)]: the highest index of [c] in [p], or -1. *)
Fixpoint rfind_from (c : ascii) (p : string) (i last : Z) : Z :=
  match p with
  | EmptyString => last
  | String a p' => rfind_from c p' (i + 1) (if Ascii.eqb a c then i else last)
  end.

Definition rfind (c : ascii) (p : string) : Z := rfind_from c p 0 (-1).

(** [p[:i]] and [p[i:]] for [0 <= i]. *)
Definition slice_to (p : string) (i : Z) : string :=
  substring 0 (Z.to_nat i) p.

Definition slice_from (p : string) (i : Z) : string :=
  substring (Z.to_nat i) (String.length p - Z.to_nat i)%nat p.

(** The [while filenameIndex < dotIndex] loop of [genericpath._splitext],
    [n] being the number of iterations left: it returns at the first
    character that is not a dot. *)
Fixpoint splitext_loop (p : string) (filenameIndex dotIndex : Z) (n : nat)
  : option (string * string) :=
  match n with
  | O => None
  | S n' =>
      if negb (String.eqb (substring (Z.to_nat filenameIndex) 1 p) ".")
      then Some (slice_to p dotIndex, slice_from p dotIndex)
      else splitext_loop p (filenameIndex + 1) dotIndex n'
  end.

Definition splitext (p : string) : string * string :=
  let sepIndex := rfind "/"%char p in
  let dotIndex := rfind "."%char p in
  if (sepIndex <? dotIndex)%Z then
    let filenameIndex := sepIndex + 1 in
    match splitext_loop p filenameIndex dotIndex
            (Z.to_nat (dotIndex - filenameIndex)) with
    | Some r => r
    | None => (p, EmptyString)
    end
  else (p, EmptyString).

(** [posixpath.dirname]: the head up to the last separator, trailing
    separators stripped unless the head is made of separators only. *)
Fixpoint all_sep (p : string) : bool :=
  match p with
  | EmptyString => true
  | String a p' => Ascii.eqb a "/"%char && all_sep p'
  end.

Fixpoint rstrip_sep (p : string) : string :=
  match p with
  | EmptyString => EmptyString
  | String a p' =>
      if all_sep p then EmptyString else String a (rstrip_sep p')
  end.

Definition dirname (p : string) : string :=
  let i := rfind "/"%char p + 1 in
  let head := slice_to p i in
  if negb (String.eqb head EmptyString) && negb (all_sep head)
  then rstrip_sep head else head.

End OsPath.

(** ** The world the program runs in *)

Inductive exn :=
| FileNotFoundError (filename : string)
| PermissionError (filename : string)
| SyntaxError (text : string)
| ValueError (msg : string)
| ImportError (name : string)
| CalledProcessError (returncode : Z) (cmd : list string) (stderr : string)
| SystemExit (code : Z).

(** [except Exception] catches every exception but [SystemExit]. *)
Definition is_Exception (e : exn) : bool :=
  match e with
  | SystemExit _ => false
  | _ => true
  end.

(** What happens when a command is started: the program cannot be started,
    or it runs to its end with a return code and its two output streams,
    having done to the files whatever its code does. *)
Inductive child :=
| NotStarted (e : exn)
| Exited (returncode : Z) (out err : string)
    (files : gmap string string -> gmap string string).

(** What [__import__] of a name does: the code of the module runs, to its
    end or to an exception ([ImportError] when there is no such module),
    and does to the files whatever it does (writing a bytecode cache, for
    one). *)
Inductive imported :=
| Imported (files : gmap string string -> gmap string string)
| ImportRaises (e : exn) (files : gmap string string -> gmap string string).

Inductive syscall :=
| SysStat (path : string)
| SysOpenRead (path : string)
| SysOpenWrite (path : string)
| SysWrite (path : string) (data : string)
| SysSpawn (argv : list string).

Inductive level := INFO | ERROR.

(** The parts of an f-string: literal text and formatted values. *)
Inductive fvalue :=
| Lit (s : string)
| FStr (s : string)
| FInt (z : Z)
| FFloat (f : float)
| FExn (e : exn).

Record world := World {
  fs : gmap string string;          (* regular files and their contents *)
  read_denied : gset string;        (* paths [open(p, "r")] fails on *)
  write_denied : gset string;       (* paths [open(p, "w")] fails on *)
  processes : list string -> nat -> child;
                                    (* outcome of the n-th child started *)
  modules : string -> imported;     (* what [__import__] of a name does *)
  syscalls : list syscall;          (* oldest first *)
  logged : list (level * list fvalue)  (* oldest first *)
}.

Definition set_fs (f : gmap string string -> gmap string string) (w : world)
  : world :=
  World (f (fs w)) (read_denied w) (write_denied w) (processes w)
    (modules w) (syscalls w) (logged w).

Definition add_syscall (c : syscall) (w : world) : world :=
  World (fs w) (read_denied w) (write_denied w) (processes w)
    (modules w) (syscalls w ++ [c]) (logged w).

Definition add_logged (r : level * list fvalue) (w : world) : world :=
  World (fs w) (read_denied w) (write_denied w) (processes w)
    (modules w) (syscalls w) (logged w ++ [r]).

Definition is_spawn (c : syscall) : bool :=
  match c with
  | SysSpawn _ => true
  | _ => false
  end.

(** The child processes started so far. *)
Definition spawned (w : world) : list syscall := filter is_spawn (syscalls w).

(** ** State and exceptions *)

Inductive result (A : Type) :=
| Ok (a : A)
| Raise (e : exn).
Arguments Ok {A} a.
Arguments Raise {A} e.

Definition M (A : Type) : Type := world -> result A * world.

Definition ret {A} (a : A) : M A := fun w => (Ok a, w).

Definition raise {A} (e : exn) : M A := fun w => (Raise e, w).

Definition bind {A B} (m : M A) (k : A -> M B) : M B :=
  fun w =>
    match m w with
    | (Ok a, w') => k a w'
    | (Raise e, w') => (Raise e, w')
    end.

(** [try: body  except ...: handler]: [handler e] is [None] when no
    [except] clause matches [e]. *)
Definition try_except {A} (body : M A) (handler : exn -> option (M A)) : M A :=
  fun w =>
    match body w with
    | (Ok a, w') => (Ok a, w')
    | (Raise e, w') =>
        match handler e with
        | Some h => h w'
        | None => (Raise e, w')
        end
    end.

#[global] Instance M_ret : MRet M := @ret.
#[global] Instance M_bind : MBind M := fun A B k m => bind m k.

(** A [for] loop whose body may [return] from the enclosing function. *)
Inductive flow := Next | Returned.

Fixpoint for_each {A} (xs : list A) (body : A -> M flow) : M flow :=
  match xs with
  | [] => ret Next
  | x :: xs' =>
      f ← body x;
      match f with
      | Next => for_each xs' body
      | Returned => ret Returned
      end
  end.

(** A [for] loop that only updates a local variable. *)
Fixpoint for_fold {A S} (xs : list A) (acc : S) (body : S -> A -> M S) : M S :=
  match xs with
  | [] => ret acc
  | x :: xs' =>
      acc' ← body acc x;
      for_fold xs' acc' body
  end.

(** ** Primitives: logging, files, processes *)

Definition logging_info (msg : list fvalue) : M unit :=
  fun w => (Ok tt, add_logged (INFO, msg) w).

Definition logging_error (msg : list fvalue) : M unit :=
  fun w => (Ok tt, add_logged (ERROR, msg) w).

Definition sys_exit {A} (code : Z) : M A := raise (SystemExit code).

Definition os_path_exists (path : string) : M bool :=
  fun w =>
    (Ok (match fs w !! path with Some _ => true | None => false end),
     add_syscall (SysStat path) w).

(** [with open(path, "r") as f: f.read()] *)
Definition read_file (path : string) : M string :=
  fun w =>
    let w' := add_syscall (SysOpenRead path) w in
    match fs w !! path with
    | None => (Raise (FileNotFoundError path), w')
    | Some code =>
        if bool_decide (path ∈ read_denied w)
        then (Raise (PermissionError path), w')
        else (Ok code, w')
    end.

(** [open(path, "w")]: creates the file or truncates it; the handle is the
    path. *)
Definition open_w (path : string) : M string :=
  fun w =>
    let w' := add_syscall (SysOpenWrite path) w in
    if bool_decide (path ∈ write_denied w)
    then (Raise (PermissionError path), w')
    else (Ok path, set_fs (insert path EmptyString) w').

(** [f.write(data)].  A write that fails once the file is open (no space
    left, text that cannot be encoded) is not modelled: what is proved of
    a successful [instrument_code] is proved under the condition that it
    succeeded. *)
Definition file_write (f : string) (data : string) : M unit :=
  fun w =>
    (Ok tt,
     set_fs (alter (fun old => old +:+ data) f)
       (add_syscall (SysWrite f data) w)).

(** Starting a child: the world decides what becomes of it. *)
Definition popen (argv : list string) : M child :=
  fun w =>
    (Ok (processes w argv (length (spawned w))),
     add_syscall (SysSpawn argv) w).

Inductive stdio :=
| PIPE
| ToFile (f : string).

Record CompletedProcess := {
  returncode : Z;
  stdout : option string;
  stderr : option string
}.

Definition captured (s : option stdio) (data : string) : option string :=
  match s with
  | Some PIPE => Some data
  | _ => None
  end.

Definition redirected (s : option stdio) (data : string) : M unit :=
  match s with
  | Some (ToFile f) =>
      fun w => (Ok tt, set_fs (alter (fun old => old +:+ data) f) w)
  | _ => ret tt
  end.

(** The child has run to its end: the files are what it made of them. *)
Definition child_ran (files : gmap string string -> gmap string string)
  : M unit :=
  fun w => (Ok tt, set_fs files w).

(** The error [subprocess.run] raises for conflicting arguments. *)
Definition capture_conflict : exn :=
  ValueError "stdout and stderr arguments may not be used with capture_output.".

(** [subprocess.run(argv, check=, capture_output=, stdout=, stderr=)] of
    the standard library.  Its first step is
    [if capture_output: if kwargs.get('stdout') is not None or
    kwargs.get('stderr') is not None: raise ValueError(...)], so
    [capture_output] together with [stdout] or [stderr] is refused before
    anything is started; otherwise both streams are piped when
    [capture_output] is set, the child runs to its end, and [check] turns
    a non-zero return code into [CalledProcessError]. *)
Definition subprocess_run (argv : list string) (check capture_output : bool)
    (stdout stderr : option stdio) : M CompletedProcess :=
  if capture_output && (bool_decide (stdout <> None) || bool_decide (stderr <> None))
  then raise capture_conflict
  else
    let stdout := if capture_output then Some PIPE else stdout in
    let stderr := if capture_output then Some PIPE else stderr in
    c ← popen argv;
    match c with
    | NotStarted e => raise e
    | Exited rc out err files =>
        child_ran files ;;
        redirected stdout out ;;
        redirected stderr err ;;
        if check && negb (rc =? 0)%Z
        then raise (CalledProcessError rc argv
                      (default EmptyString (captured stderr err)))
        else ret {| returncode := rc;
                    stdout := captured stdout out;
                    stderr := captured stderr err |}
    end.

(** [__import__(name)] *)
Definition import_ (name : string) : M unit :=
  fun w =>
    match modules w name with
    | Imported files => (Ok tt, set_fs files w)
    | ImportRaises e files => (Raise e, set_fs files w)
    end.

(** ** The program *)

Definition NL : string := String "010"%char EmptyString.

Record Namespace := {
  target_file : string;
  iterations : Z;
  threshold : float;
  output : string;
  dependency_check : bool
}.

(** [0 <= x <= 1] on a Python float: false on NaN. *)
Definition in_unit_interval (x : float) : bool :=
  PrimFloat.leb 0%float x && PrimFloat.leb x 1%float.

(** [not x] on a value that is [None] or a string. *)
Definition falsy (x : option string) : bool :=
  match x with
  | None => true
  | Some s => String.eqb s EmptyString
  end.

(** How the interpreter ends, given what [main()] did: a normal return
    exits with 0, [sys.exit(code)] with [code], an exception nobody caught
    with a traceback and 1. *)
Definition exit_status (r : result unit) : Z :=
  match r with
  | Ok _ => 0
  | Raise (SystemExit code) => code
  | Raise _ => 1
  end.

Section Program.

(** The parser and the serializer of the standard library: [ast.parse]
    ([None] for a [SyntaxError]) and [ast.unparse]. *)
Variable ast_parse : string -> option mod_.
Variable ast_unparse : mod_ -> string.

(** The body of the loop of [check_dependencies], on the list of missing
    dependencies collected so far. *)
Definition check_dependency (missing_dependencies : list string)
    (dep : string) : M (list string) :=
  try_except
    (subprocess_run [dep; "--version"] true true None None;;
     mret missing_dependencies)
    (fun e =>
       match e with
       | FileNotFoundError _ => Some (mret (missing_dependencies ++ [dep])%list)
       | CalledProcessError _ _ _ =>
           Some (try_except
                   (import_ dep;; mret missing_dependencies)
                   (fun e' =>
                      match e' with
                      | ImportError _ =>
                          Some (mret (missing_dependencies ++ [dep])%list)
                      | _ => None
                      end))
       | _ => None
       end).

Definition check_dependencies : M bool :=
  let dependencies := ["bandit"; "flake8"; "pylint"; "pyre-check"] in
  missing_dependencies ← for_fold dependencies [] check_dependency;
  match missing_dependencies with
  | _ :: _ =>
      logging_error [Lit "Missing dependencies: ";
                     FStr (String.concat ", " missing_dependencies)];;
      mret false
  | [] => mret true
  end.

Definition instrument_code (filename : string) : M (option string) :=
  code ←
    try_except (code ← read_file filename; mret (Some code))
      (fun e =>
         match e with
         | FileNotFoundError _ =>
             Some (logging_error [Lit "File not found: "; FStr filename];;
                   mret None)
         | SystemExit _ => None
         | _ =>
             Some (logging_error [Lit "Error reading file: "; FExn e];;
                   mret None)
         end);
  match code with
  | None => mret None
  | Some code =>
      (* [ast.parse] stands outside every [try] *)
      tree ← match ast_parse code with
             | Some tree => mret tree
             | None => raise (SyntaxError code)
             end;
      let instrumented_tree := TimingVisitor.visit_tree tree in
      let instrumented_code := ast_unparse instrumented_tree in
      let instrumented_filename :=
        fst (OsPath.splitext filename) +:+ "_instrumented.py" in
      try_except
        (f ← open_w instrumented_filename;
         file_write f ("import time" +:+ NL);;
         file_write f instrumented_code;;
         logging_info [Lit "Instrumented code written to ";
                       FStr instrumented_filename];;
         mret (Some instrumented_filename))
        (fun e =>
           if is_Exception e
           then Some (logging_error
                        [Lit "Error writing instrumented code: "; FExn e];;
                      mret None)
           else None)
  end.

(** One pass of the loop body of [run_analysis]. *)
Definition run_iteration (instrumented_file : string) (iterations : Z)
    (outfile : string) (i : Z) : M flow :=
  logging_info [Lit "Running iteration "; FInt (i + 1); Lit "/";
                FInt iterations];;
  try_except
    (subprocess_run ["python"; instrumented_file] false true
       (Some (ToFile outfile)) (Some PIPE);;
     mret Next)
    (fun e =>
       match e with
       | CalledProcessError _ _ stderr =>
           Some (logging_error [Lit "Error during execution: "; FExn e];;
                 logging_error [Lit "Stderr: "; FStr stderr];;
                 mret Returned)
       | SystemExit _ => None
       | _ =>
           Some (logging_error
                   [Lit "Unexpected error during execution: "; FExn e];;
                 mret Returned)
       end).

(** [run_analysis] returns [None] on every path. *)
Definition run_analysis (instrumented_file : string) (iterations : Z)
    (threshold : float) (output_file : string) : M unit :=
  found ← os_path_exists instrumented_file;
  if negb found then
    logging_error [Lit "Instrumented file not found: ";
                   FStr instrumented_file]
  else
    try_except
      (outfile ← open_w output_file;
       f ← for_each (seqZ 0 iterations)
             (run_iteration instrumented_file iterations outfile);
       match f with
       | Returned => mret tt
       | Next =>
           logging_info [Lit "Analysis completed.  Results written to ";
                         FStr output_file]
       end)
      (fun e =>
         if is_Exception e
         then Some (logging_error
                      [Lit "Error writing to output file: "; FExn e])
         else None).

Definition main (args : Namespace) : M unit :=
  found ← os_path_exists (target_file args);
  if negb found then
    logging_error [Lit "Target file not found: "; FStr (target_file args)];;
    sys_exit 1
  else if (iterations args <=? 0)%Z then
    logging_error [Lit "Number of iterations must be greater than 0."];;
    sys_exit 1
  else if negb (in_unit_interval (threshold args)) then
    logging_error [Lit "Threshold must be between 0 and 1."];;
    sys_exit 1
  else
    (if dependency_check args then
       ok ← check_dependencies;
       if negb ok then sys_exit 1 else mret tt
     else mret tt);;
    logging_info [Lit "Starting timing attack analysis on ";
                  FStr (target_file args); Lit "..."];;
    logging_info [Lit "Number of iterations: "; FInt (iterations args)];;
    logging_info [Lit "Threshold: "; FFloat (threshold args)];;
    logging_info [Lit "Output file: "; FStr (output args)];;
    instrumented_file ← instrument_code (target_file args);
    if falsy instrumented_file then
      logging_error [Lit "Failed to instrument code. Exiting."];;
      sys_exit 1
    else
      run_analysis (default EmptyString instrumented_file) (iterations args)
        (threshold args) (output args);;
      logging_info [Lit "Timing attack analysis completed."].

End Program.

(** ** Vocabulary of the properties *)

Module Probe.

(** The four statements of a probe, by their role. *)
Definition is_timestamp_capture (target : string) (s : stmt) : Prop :=
  exists clock, s = Assign [Name target Store] (Call clock [] []).

Definition is_duration (s : stmt) : Prop :=
  s = Assign [Name "duration" Store]
        (BinOp (Name "end_time" Load) Sub (Name "start_time" Load)).

Definition is_emission (name : string) (s : stmt) : Prop :=
  exists printer,
    s = Expr (Call printer
                [Constant (ConstStr ("Function " +:+ name +:+ " took: "));
                 Name "duration" Load] []).

(** A body that starts with a probe of the function [name]. *)
Definition probed (name : string) (body : list stmt) : Prop :=
  exists s1 s2 s3 s4 rest,
    body = s1 :: s2 :: s3 :: s4 :: rest /\
    is_timestamp_capture "start_time" s1 /\
    is_timestamp_capture "end_time" s2 /\
    is_duration s3 /\
    is_emission name s4.

(** Every [FunctionDef] node below a statement, with its body: the node
    itself, the functions nested in it, the methods of a class, the
    functions under any compound statement. *)
Fixpoint function_defs (s : stmt) : list (string * list stmt) :=
  match s with
  | FunctionDef name _ body _ => (name, body) :: flat_map function_defs body
  | AsyncFunctionDef _ _ body _ => flat_map function_defs body
  | ClassDef _ _ body _ => flat_map function_defs body
  | For _ _ body orelse | While _ body orelse | If _ body orelse =>
      flat_map function_defs body ++ flat_map function_defs orelse
  | With _ body => flat_map function_defs body
  | Try body handlers orelse finalbody =>
      flat_map function_defs body ++ flat_map handler_defs handlers ++
      flat_map function_defs orelse ++ flat_map function_defs finalbody
  | Return _ | Assign _ _ | Expr _ | Import _ | Pass => []
  end
with handler_defs (h : excepthandler) : list (string * list stmt) :=
  match h with
  | ExceptHandler _ _ body => flat_map function_defs body
  end.

Definition module_defs (tree : mod_) : list (string * list stmt) :=
  match tree with
  | Module body => flat_map function_defs body
  end.

(** Every definition of [defs] has a probed definition of the same name
    in [defs']. *)
Definition covers (defs defs' : list (string * list stmt)) : Prop :=
  forall name body,
    In (name, body) defs ->
    exists body', In (name, body') defs' /\ probed name body'.

(** Every function definition of [original] has a probed definition of
    the same name in [instrumented]. *)
Definition every_def_probed (original instrumented : mod_) : Prop :=
  covers (module_defs original) (module_defs instrumented).

(** No [FunctionDef] below another [FunctionDef]. *)
Fixpoint no_defs (s : stmt) : bool :=
  match s with
  | FunctionDef _ _ _ _ => false
  | AsyncFunctionDef _ _ body _ | ClassDef _ _ body _ | With _ body =>
      forallb no_defs body
  | For _ _ body orelse | While _ body orelse | If _ body orelse =>
      forallb no_defs body && forallb no_defs orelse
  | Try body handlers orelse finalbody =>
      forallb no_defs body && forallb no_defs_handler handlers &&
      forallb no_defs orelse && forallb no_defs finalbody
  | Return _ | Assign _ _ | Expr _ | Import _ | Pass => true
  end
with no_defs_handler (h : excepthandler) : bool :=
  match h with
  | ExceptHandler _ _ body => forallb no_defs body
  end.

Fixpoint no_nested_defs (s : stmt) : bool :=
  match s with
  | FunctionDef _ _ body _ => forallb no_defs body
  | AsyncFunctionDef _ _ body _ | ClassDef _ _ body _ | With _ body =>
      forallb no_nested_defs body
  | For _ _ body orelse | While _ body orelse | If _ body orelse =>
      forallb no_nested_defs body && forallb no_nested_defs orelse
  | Try body handlers orelse finalbody =>
      forallb no_nested_defs body && forallb no_nested_handler handlers &&
      forallb no_nested_defs orelse && forallb no_nested_defs finalbody
  | Return _ | Assign _ _ | Expr _ | Import _ | Pass => true
  end
with no_nested_handler (h : excepthandler) : bool :=
  match h with
  | ExceptHandler _ _ body => forallb no_nested_defs body
  end.

Definition module_no_nested_defs (tree : mod_) : bool :=
  match tree with
  | Module body => forallb no_nested_defs body
  end.

(** The [import] statements below a statement. *)
Fixpoint imports (s : stmt) : list (list string) :=
  match s with
  | Import names => [names]
  | FunctionDef _ _ body _ | AsyncFunctionDef _ _ body _
  | ClassDef _ _ body _ | With _ body => flat_map imports body
  | For _ _ body orelse | While _ body orelse | If _ body orelse =>
      flat_map imports body ++ flat_map imports orelse
  | Try body handlers orelse finalbody =>
      flat_map imports body ++ flat_map handler_imports handlers ++
      flat_map imports orelse ++ flat_map imports finalbody
  | Return _ | Assign _ _ | Expr _ | Pass => []
  end
with handler_imports (h : excepthandler) : list (list string) :=
  match h with
  | ExceptHandler _ _ body => flat_map imports body
  end.

(** The artifact name that keeps the extension of the original. *)
Definition named_with_original_extension (filename path : string) : Prop :=
  path = fst (OsPath.splitext filename) +:+ "_instrumented" +:+
         snd (OsPath.splitext filename).

Definition module_imports (tree : mod_) : list (list string) :=
  match tree with
  | Module body => flat_map imports body
  end.

End Probe.

(** ** Sample files and a sample world

    A serializer for the fragment (one statement per line, four spaces per
    level), a parser that knows the sample files by their text, and a
    world holding them; they instantiate [ast.unparse] and [ast.parse] in
    the examples. *)

Module Sample.

Definition operator_text (op : operator) : string :=
  match op with
  | Add => " + "
  | Sub => " - "
  | Mult => " * "
  | Div => " / "
  end.

Definition constant_text (c : constant) : string :=
  match c with
  | ConstNone => "None"
  | ConstBool true => "True"
  | ConstBool false => "False"
  | ConstInt z => pretty z
  | ConstStr s => "'" +:+ s +:+ "'"
  end.

Fixpoint expr_text (e : expr) : string :=
  match e with
  | Name id _ => id
  | Constant value => constant_text value
  | BinOp lhs op rhs => expr_text lhs +:+ operator_text op +:+ expr_text rhs
  | Call func args keywords =>
      expr_text func +:+ "(" +:+
      String.concat ", "
        (map expr_text args ++
         map (fun kw => fst kw +:+ "=" +:+ expr_text (snd kw)) keywords)
      +:+ ")"
  | Attribute value attr _ => expr_text value +:+ "." +:+ attr
  | Lambda args body =>
      "lambda " +:+ String.concat ", " args +:+ ": " +:+ expr_text body
  end.

Definition decorator_lines (indent : string) (ds : list expr) : list string :=
  map (fun d => indent +:+ "@" +:+ expr_text d) ds.

Definition block (lines : list (list string)) : list string := concat lines.

Fixpoint stmt_lines (indent : string) (s : stmt) : list string :=
  let inner := indent +:+ "    " in
  match s with
  | FunctionDef name args body ds =>
      decorator_lines indent ds ++
      (indent +:+ "def " +:+ name +:+ "(" +:+ String.concat ", " args +:+ "):")
      :: block (map (stmt_lines inner) body)
  | AsyncFunctionDef name args body ds =>
      decorator_lines indent ds ++
      (indent +:+ "async def " +:+ name +:+ "(" +:+ String.concat ", " args
       +:+ "):")
      :: block (map (stmt_lines inner) body)
  | ClassDef name bases body ds =>
      decorator_lines indent ds ++
      (indent +:+ "class " +:+ name +:+ "(" +:+
       String.concat ", " (map expr_text bases) +:+ "):")
      :: block (map (stmt_lines inner) body)
  | Return None => [indent +:+ "return"]
  | Return (Some value) => [indent +:+ "return " +:+ expr_text value]
  | Assign targets value =>
      [indent +:+ String.concat " = " (map expr_text targets ++ [expr_text value])]
  | Expr value => [indent +:+ expr_text value]
  | For target iter body orelse =>
      (indent +:+ "for " +:+ expr_text target +:+ " in " +:+ expr_text iter
       +:+ ":")
      :: block (map (stmt_lines inner) body) ++
      match orelse with
      | [] => []
      | _ => (indent +:+ "else:") :: block (map (stmt_lines inner) orelse)
      end
  | While test body orelse =>
      (indent +:+ "while " +:+ expr_text test +:+ ":")
      :: block (map (stmt_lines inner) body) ++
      match orelse with
      | [] => []
      | _ => (indent +:+ "else:") :: block (map (stmt_lines inner) orelse)
      end
  | If test body orelse =>
      (indent +:+ "if " +:+ expr_text test +:+ ":")
      :: block (map (stmt_lines inner) body) ++
      match orelse with
      | [] => []
      | _ => (indent +:+ "else:") :: block (map (stmt_lines inner) orelse)
      end
  | With items body =>
      (indent +:+ "with " +:+ String.concat ", " (map expr_text items) +:+ ":")
      :: block (map (stmt_lines inner) body)
  | Try body handlers orelse finalbody =>
      (indent +:+ "try:")
      :: block (map (stmt_lines inner) body) ++
      block (map (handler_lines indent) handlers) ++
      match orelse with
      | [] => []
      | _ => (indent +:+ "else:") :: block (map (stmt_lines inner) orelse)
      end ++
      match finalbody with
      | [] => []
      | _ => (indent +:+ "finally:") :: block (map (stmt_lines inner) finalbody)
      end
  | Import names => [indent +:+ "import " +:+ String.concat ", " names]
  | Pass => [indent +:+ "pass"]
  end
with handler_lines (indent : string) (h : excepthandler) : list string :=
  match h with
  | ExceptHandler type name body =>
      (indent +:+ "except" +:+
       match type with Some t => " " +:+ expr_text t | None => EmptyString end +:+
       match name with Some n => " as " +:+ n | None => EmptyString end +:+ ":")
      :: block (map (stmt_lines (indent +:+ "    ")) body)
  end.

Definition unparse (tree : mod_) : string :=
  match tree with
  | Module body => String.concat NL (block (map (stmt_lines EmptyString) body))
  end.

(** [def add(a, b): return a + b] *)
Definition add_source : string :=
  "def add(a, b):" +:+ NL +:+ "    return a + b" +:+ NL.

Definition add_tree : mod_ :=
  Module [FunctionDef "add" ["a"; "b"]
            [Return (Some (BinOp (Name "a" Load) Add (Name "b" Load)))] []].

(** A function nested in a function. *)
Definition nested_source : string :=
  "def outer():" +:+ NL +:+
  "    def inner():" +:+ NL +:+
  "        pass" +:+ NL +:+
  "    return inner" +:+ NL.

Definition nested_tree : mod_ :=
  Module [FunctionDef "outer" []
            [FunctionDef "inner" [] [Pass] [];
             Return (Some (Name "inner" Load))] []].

(** A method of a class and a function under an [if]. *)
Definition method_source : string :=
  "class Vault:" +:+ NL +:+
  "    def check(self, guess):" +:+ NL +:+
  "        return guess" +:+ NL +:+
  "if debug:" +:+ NL +:+
  "    def trace(msg):" +:+ NL +:+
  "        pass" +:+ NL.

Definition method_tree : mod_ :=
  Module [ClassDef "Vault" []
            [FunctionDef "check" ["self"; "guess"]
               [Return (Some (Name "guess" Load))] []] [];
          If (Name "debug" Load)
            [FunctionDef "trace" ["msg"] [Pass] []] []].

(** Not Python: the parameter list is never closed. *)
Definition broken_source : string := "def broken(:" +:+ NL.

Definition parse (code : string) : option mod_ :=
  if String.eqb code add_source then Some add_tree
  else if String.eqb code nested_source then Some nested_tree
  else if String.eqb code method_source then Some method_tree
  else None.

(** Every child that is started prints one observation and exits with 0. *)
Definition every_child_succeeds (argv : list string) (n : nat) : child :=
  Exited 0 ("Function add took: 0.0" +:+ NL) EmptyString (fun files => files).

(** Every child that is started exits with 1 and a traceback. *)
Definition every_child_fails (argv : list string) (n : nat) : child :=
  Exited 1 EmptyString ("TypeError: 'module' object is not callable" +:+ NL)
    (fun files => files).

Definition files : gmap string string :=
  <["add.py" := add_source]>
    (<["nested.py" := nested_source]>
       (<["broken.py" := broken_source]>
          (<["lib/tool.pyw" := add_source]>
             (<["add_instrumented.py" := "stale"]> ∅)))).

Definition world0 : world :=
  {| fs := files;
     read_denied := ∅;
     write_denied := {["/proc/version"]};
     processes := every_child_succeeds;
     modules := fun name => ImportRaises (ImportError name) (fun files => files);
     syscalls := [];
     logged := [] |}.

Definition world_failing_children : world :=
  {| fs := files;
     read_denied := ∅;
     write_denied := ∅;
     processes := every_child_fails;
     modules := fun name => ImportRaises (ImportError name) (fun files => files);
     syscalls := [];
     logged := [] |}.

Definition args0 : Namespace :=
  {| target_file := "add.py";
     iterations := 3;
     threshold := 0x1.999999999999ap-5%float;
     output := "timing_analysis.log";
     dependency_check := false |}.

End Sample.

(** ** Vocabulary of names and their bindings *)

Module Binding.

(** The function definitions the traversal of [TimingVisitor] reaches,
    with their parameters and bodies: every [def] that is not inside
    another [def]. *)
Fixpoint reached_defs (s : stmt)
  : list (string * list string * list stmt) :=
  match s with
  | FunctionDef name args body _ => [(name, args, body)]
  | AsyncFunctionDef _ _ body _ | ClassDef _ _ body _ | With _ body =>
      flat_map reached_defs body
  | For _ _ body orelse | While _ body orelse | If _ body orelse =>
      flat_map reached_defs body ++ flat_map reached_defs orelse
  | Try body handlers orelse finalbody =>
      flat_map reached_defs body ++ flat_map reached_handler handlers ++
      flat_map reached_defs orelse ++ flat_map reached_defs finalbody
  | Return _ | Assign _ _ | Expr _ | Import _ | Pass => []
  end
with reached_handler (h : excepthandler)
  : list (string * list string * list stmt) :=
  match h with
  | ExceptHandler _ _ body => flat_map reached_defs body
  end.

Definition module_reached_defs (tree : mod_)
  : list (string * list string * list stmt) :=
  match tree with
  | Module body => flat_map reached_defs body
  end.

(** A timestamp capture: the call of the bare name [time], assigned. *)
Definition capture (target : string) : stmt :=
  Assign [Name target Store] (Call (Name "time" Load) [] []).

(** A definition with the probe in front of its body. *)
Definition with_probe (d : string * list string * list stmt)
  : string * list string * list stmt :=
  let '(name, args, body) := d in
  (name, args,
   capture "start_time" :: capture "end_time"
   :: Assign [Name "duration" Store]
        (BinOp (Name "end_time" Load) Sub (Name "start_time" Load))
   :: Expr (Call (Attribute (Name "print" Load) "print" Load)
              [Constant (ConstStr ("Function " +:+ name +:+ " took: "));
               Name "duration" Load] [])
   :: body).

(** Python decides where a name is looked up from the statements that
    bind it.  [binds id s]: the statement [s] binds [id] in the scope it
    stands in (an assignment to it, an import of it, a [def] or [class]
    of that name, a loop or [except] target, at any depth of compound
    statements; the bodies of functions and classes are scopes of their
    own). *)
Definition binds_target (id : string) (e : expr) : bool :=
  match e with
  | Name x _ => String.eqb x id
  | _ => false
  end.

Fixpoint binds (id : string) (s : stmt) : bool :=
  match s with
  | FunctionDef name _ _ _ | AsyncFunctionDef name _ _ _
  | ClassDef name _ _ _ => String.eqb name id
  | Assign targets _ => existsb (binds_target id) targets
  | Import names => existsb (String.eqb id) names
  | For target _ body orelse =>
      binds_target id target || existsb (binds id) body ||
      existsb (binds id) orelse
  | While _ body orelse | If _ body orelse =>
      existsb (binds id) body || existsb (binds id) orelse
  | With _ body => existsb (binds id) body
  | Try body handlers orelse finalbody =>
      existsb (binds id) body || existsb (handler_binds id) handlers ||
      existsb (binds id) orelse || existsb (binds id) finalbody
  | Return _ | Expr _ | Pass => false
  end
with handler_binds (id : string) (h : excepthandler) : bool :=
  match h with
  | ExceptHandler _ name body =>
      match name with
      | Some x => String.eqb x id
      | None => false
      end || existsb (binds id) body
  end.

(** [rebinds id s]: [s] binds [id] to something that need not be the
    module of that name.  As [binds], but for [import id], which binds
    the same module once more. *)
Fixpoint rebinds (id : string) (s : stmt) : bool :=
  match s with
  | FunctionDef name _ _ _ | AsyncFunctionDef name _ _ _
  | ClassDef name _ _ _ => String.eqb name id
  | Assign targets _ => existsb (binds_target id) targets
  | Import _ => false
  | For target _ body orelse =>
      binds_target id target || existsb (rebinds id) body ||
      existsb (rebinds id) orelse
  | While _ body orelse | If _ body orelse =>
      existsb (rebinds id) body || existsb (rebinds id) orelse
  | With _ body => existsb (rebinds id) body
  | Try body handlers orelse finalbody =>
      existsb (rebinds id) body || existsb (handler_rebinds id) handlers ||
      existsb (rebinds id) orelse || existsb (rebinds id) finalbody
  | Return _ | Expr _ | Pass => false
  end
with handler_rebinds (id : string) (h : excepthandler) : bool :=
  match h with
  | ExceptHandler _ name body =>
      match name with
      | Some x => String.eqb x id
      | None => false
      end || existsb (rebinds id) body
  end.

(** A parameter, or a name bound in the body, is local to the function
    (an [import] in the body included: the name is a variable of the
    function from its first statement on). *)
Definition local_to (id : string) (args : list string) (body : list stmt)
  : bool :=
  existsb (String.eqb id) args || existsb (binds id) body.

(** What a name read in a function of the artifact refers to, the artifact
    being the statement [import id] followed by the statements of a
    tree. *)
Inductive referent :=
| PrependedImport    (* the module-level name, bound to the module only *)
| SourceBinding      (* the module-level name, which the tree rebinds *)
| EnclosingVariable  (* a variable of an enclosing function *)
| LocalVariable.     (* a parameter or variable of the function itself *)

Definition referent_of (id : string) (module_binds enclosing : bool)
    (args : list string) (body : list stmt) : referent :=
  if local_to id args body then LocalVariable
  else if enclosing then EnclosingVariable
  else if module_binds then SourceBinding
  else PrependedImport.

(** For each definition the traversal reaches, what [id] refers to in its
    body.  An [async def] is a scope around the definitions in it; a
    class is not. *)
Fixpoint referents (id : string) (module_binds enclosing : bool) (s : stmt)
  : list (string * referent) :=
  match s with
  | FunctionDef name args body _ =>
      [(name, referent_of id module_binds enclosing args body)]
  | AsyncFunctionDef _ args body _ =>
      flat_map
        (referents id module_binds (enclosing || local_to id args body)) body
  | ClassDef _ _ body _ | With _ body =>
      flat_map (referents id module_binds enclosing) body
  | For _ _ body orelse | While _ body orelse | If _ body orelse =>
      flat_map (referents id module_binds enclosing) body ++
      flat_map (referents id module_binds enclosing) orelse
  | Try body handlers orelse finalbody =>
      flat_map (referents id module_binds enclosing) body ++
      flat_map (handler_referents id module_binds enclosing) handlers ++
      flat_map (referents id module_binds enclosing) orelse ++
      flat_map (referents id module_binds enclosing) finalbody
  | Return _ | Assign _ _ | Expr _ | Import _ | Pass => []
  end
with handler_referents (id : string) (module_binds enclosing : bool)
    (h : excepthandler) : list (string * referent) :=
  match h with
  | ExceptHandler _ _ body =>
      flat_map (referents id module_binds enclosing) body
  end.

Definition artifact_referents (id : string) (tree : mod_)
  : list (string * referent) :=
  match tree with
  | Module body =>
      flat_map (referents id (existsb (rebinds id) body) false) body
  end.

(** Both captures of every probed function call the module that the
    prepended [import time] binds. *)
Definition captures_call_the_module (tree : mod_) : Prop :=
  Forall (fun r => snd r = PrependedImport)
    (artifact_referents "time" (TimingVisitor.visit_tree tree)).

(** Every definition of a function below a statement, [async] ones
    included: whether it is [async], its name, its parameters and its
    decorators. *)
Fixpoint signatures (s : stmt)
  : list (bool * string * list string * list expr) :=
  match s with
  | FunctionDef name args body ds =>
      (false, name, args, ds) :: flat_map signatures body
  | AsyncFunctionDef name args body ds =>
      (true, name, args, ds) :: flat_map signatures body
  | ClassDef _ _ body _ | With _ body => flat_map signatures body
  | For _ _ body orelse | While _ body orelse | If _ body orelse =>
      flat_map signatures body ++ flat_map signatures orelse
  | Try body handlers orelse finalbody =>
      flat_map signatures body ++ flat_map handler_signatures handlers ++
      flat_map signatures orelse ++ flat_map signatures finalbody
  | Return _ | Assign _ _ | Expr _ | Import _ | Pass => []
  end
with handler_signatures (h : excepthandler)
  : list (bool * string * list string * list expr) :=
  match h with
  | ExceptHandler _ _ body => flat_map signatures body
  end.

Definition module_signatures (tree : mod_)
  : list (bool * string * list string * list expr) :=
  match tree with
  | Module body => flat_map signatures body
  end.

End Binding.

(** ** Vocabulary of the dependency check *)

Module Deps.

(** The verdict of [check_dependencies] on one tool, from what became of
    its [--version] command: found when the command exits with 0, or
    exits with an error while the module of that name is imported. *)
Definition found (modules : string -> imported) (dep : string) (c : child)
  : bool :=
  match c with
  | Exited rc _ _ _ =>
      (rc =? 0) ||
      match modules dep with
      | Imported _ => true
      | ImportRaises _ _ => false
      end
  | NotStarted _ => false
  end.

(** The check of one tool ends without an exception: its program does not
    exist, or the command runs to its end and, when it fails, the import
    that follows succeeds or raises [ImportError]. *)
Definition settled (modules : string -> imported) (dep : string) (c : child)
  : bool :=
  match c with
  | Exited rc _ _ _ =>
      (rc =? 0) ||
      match modules dep with
      | Imported _ => true
      | ImportRaises (ImportError _) _ => true
      | ImportRaises _ _ => false
      end
  | NotStarted (FileNotFoundError _) => true
  | NotStarted _ => false
  end.

(** The tools not found, when the first of them is the [n]-th child. *)
Fixpoint missing (processes : list string -> nat -> child)
    (modules : string -> imported) (n : nat) (deps : list string)
  : list string :=
  match deps with
  | [] => []
  | dep :: deps' =>
      (if found modules dep (processes [dep; "--version"] n)
       then [] else [dep]) ++
      missing processes modules (S n) deps'
  end.

Fixpoint all_settled (processes : list string -> nat -> child)
    (modules : string -> imported) (n : nat) (deps : list string) : bool :=
  match deps with
  | [] => true
  | dep :: deps' =>
      settled modules dep (processes [dep; "--version"] n) &&
      all_settled processes modules (S n) deps'
  end.

Definition tools : list string := ["bandit"; "flake8"; "pylint"; "pyre-check"].

(** The errors of a start that [check_dependencies] has no handler for. *)
Definition escapes (e : exn) : bool :=
  match e with
  | FileNotFoundError _ | CalledProcessError _ _ _ => false
  | _ => true
  end.

End Deps.

(** ** More sample worlds *)

Module Scene.

(** A module without any function definition. *)
Definition constants_tree : mod_ :=
  Module [Import ["os"];
          Assign [Name "LIMIT" Store] (Constant (ConstInt 3));
          ClassDef "Config" []
            [Assign [Name "debug" Store] (Constant (ConstBool false))] [];
          If (Name "LIMIT" Load) [Expr (Call (Name "print" Load)
                                          [Name "LIMIT" Load] [])] [Pass]].

(** [time = int], a function and its call: the source binds [time]. *)
Definition rebinding_tree : mod_ :=
  Module [Assign [Name "time" Store] (Name "int" Load);
          FunctionDef "stamp" [] [Return (Some (Constant (ConstInt 0)))] [];
          Expr (Call (Name "stamp" Load) [] [])].

(** [import time] and [def now(): return time.time()]: the source imports
    the module itself. *)
Definition importing_tree : mod_ :=
  Module [Import ["time"];
          FunctionDef "now" []
            [Return (Some (Call (Attribute (Name "time" Load) "time" Load)
                             [] []))] []].

(** [def wait(time): return time]: a parameter named [time]. *)
Definition parameter_tree : mod_ :=
  Module [FunctionDef "wait" ["time"] [Return (Some (Name "time" Load))] []].

(** [bandit] is not installed, [flake8] answers, [pylint] fails on
    [--version] and can be imported, which leaves a bytecode cache behind,
    [pyre-check] fails and cannot. *)
Definition version_command (argv : list string) (n : nat) : child :=
  let tool := hd EmptyString argv in
  if String.eqb tool "bandit" then NotStarted (FileNotFoundError "bandit")
  else if String.eqb tool "flake8"
  then Exited 0 "6.0.0" EmptyString (fun files => files)
  else if String.eqb tool "pylint"
  then Exited 2 EmptyString "usage" (fun files => files)
  else Exited 1 EmptyString "error" (fun files => files).

Definition sample_modules (name : string) : imported :=
  if String.eqb name "pylint"
  then Imported (insert "__pycache__/pylint.cpython-311.pyc" "bytecode")
  else ImportRaises (ImportError name) (fun files => files).

Definition world_tools : world :=
  {| fs := Sample.files;
     read_denied := ∅;
     write_denied := ∅;
     processes := version_command;
     modules := sample_modules;
     syscalls := [];
     logged := [] |}.

(** [flake8] is there and may not be executed. *)
Definition locked_command (argv : list string) (n : nat) : child :=
  let tool := hd EmptyString argv in
  if String.eqb tool "flake8" then NotStarted (PermissionError "flake8")
  else Exited 0 EmptyString EmptyString (fun files => files).

Definition world_locked : world :=
  {| fs := Sample.files;
     read_denied := ∅;
     write_denied := ∅;
     processes := locked_command;
     modules := fun name => ImportRaises (ImportError name) (fun files => files);
     syscalls := [];
     logged := [] |}.

(** The directory of [add.py] takes no new file. *)
Definition world_readonly : world :=
  {| fs := Sample.files;
     read_denied := ∅;
     write_denied := {["add_instrumented.py"]};
     processes := Sample.every_child_succeeds;
     modules := fun name => ImportRaises (ImportError name) (fun files => files);
     syscalls := [];
     logged := [] |}.

Definition args_checked : Namespace :=
  {| target_file := "add.py";
     iterations := 3;
     threshold := 0x1.999999999999ap-5%float;
     output := "timing_analysis.log";
     dependency_check := true |}.

End Scene.

(** * Properties *)

Import Probe.

(** Closed side conditions on sets and maps, by evaluation. *)
Ltac by_decide := apply (bool_decide_unpack _); vm_compute; exact I.

(** ** The visitor *)

Section Visitor.

Import TimingVisitor.

Lemma visit_FunctionDef_probed name args body ds :
  exists body',
    visit (FunctionDef name args body ds) = FunctionDef name args body' ds /\
    probed name body'.
Proof.
  eexists; split; [reflexivity|].
  unfold insert_0. do 5 eexists. split; [reflexivity|].
  repeat split; try (eexists; reflexivity).
Qed.

Lemma flat_map_ext_Forall {A B} (f g : A -> list B) (l : list A) :
  Forall (fun x => f x = g x) l -> flat_map f l = flat_map g l.
Proof. induction 1; simpl; congruence. Qed.

Lemma flat_map_map {A B C} (f : B -> list C) (g : A -> B) (l : list A) :
  flat_map f (map g l) = flat_map (fun x => f (g x)) l.
Proof. induction l; simpl; congruence. Qed.

(** A probe holds no [import] statement, so the visitor adds none. *)
Lemma imports_visit (s : stmt) : imports (visit s) = imports s.
Proof.
  induction s using stmt_nested_ind
    with (Q := fun h => handler_imports (visit_handler h) = handler_imports h);
    try reflexivity; simpl; rewrite ?flat_map_map;
    repeat match goal with
           | H : Forall _ ?l |- context [flat_map _ ?l] =>
               rewrite (flat_map_ext_Forall _ _ l H); clear H
           end; reflexivity.
Qed.

Lemma imports_visit_tree (tree : mod_) :
  module_imports (visit_tree tree) = module_imports tree.
Proof.
  destruct tree as [body]. simpl. rewrite flat_map_map.
  apply flat_map_ext_Forall, Forall_forall. intros s _. apply imports_visit.
Qed.

(** C3: in every function definition the visitor probes, exactly four
    statements are put in front of the original body, which follows
    unchanged: the start-timestamp capture, the end-timestamp capture, the
    duration computed as end - start, and the emission that names the
    function and the duration. *)
Theorem visit_FunctionDef_splices_four_statements_first :
  forall name args body decorator_list,
    exists s1 s2 s3 s4,
      visit (FunctionDef name args body decorator_list) =
        FunctionDef name args (s1 :: s2 :: s3 :: s4 :: body) decorator_list /\
      is_timestamp_capture "start_time" s1 /\
      is_timestamp_capture "end_time" s2 /\
      is_duration s3 /\
      is_emission name s4.
Proof.
  intros. do 4 eexists. split; [reflexivity|].
  repeat split; eexists; reflexivity.
Qed.

(** *** Which definitions the traversal reaches *)

(** *** Which definitions the traversal reaches *)

Lemma flat_map_nil_Forall {A B} (f : A -> list B) (p : A -> bool) (l : list A) :
  Forall (fun x => p x = true -> f x = []) l ->
  forallb p l = true -> flat_map f l = [].
Proof.
  induction 1 as [|x l Hx _ IH]; simpl; [reflexivity|].
  intros Hb. apply andb_prop in Hb as [Hb1 Hb2].
  now rewrite (Hx Hb1), (IH Hb2).
Qed.

Lemma no_defs_function_defs (s : stmt) :
  no_defs s = true -> function_defs s = [].
Proof.
  induction s using stmt_nested_ind
    with (Q := fun h => no_defs_handler h = true -> handler_defs h = []);
    simpl; intros Hs; try reflexivity; try discriminate;
    repeat (apply andb_prop in Hs; destruct Hs as [Hs ?]);
    repeat match goal with
           | H : Forall _ ?l, Hb : forallb _ ?l = true |- _ =>
               rewrite (flat_map_nil_Forall _ _ l H Hb); clear H Hb
           end; reflexivity.
Qed.

Lemma covers_nil defs' : covers [] defs'.
Proof. intros name body []. Qed.

Lemma covers_app d1 d1' d2 d2' :
  covers d1 d1' -> covers d2 d2' -> covers (d1 ++ d2) (d1' ++ d2').
Proof.
  intros H1 H2 name body Hin. apply in_app_or in Hin as [Hin|Hin].
  - destruct (H1 _ _ Hin) as (b' & ? & ?). exists b'.
    split; [apply in_or_app; now left|assumption].
  - destruct (H2 _ _ Hin) as (b' & ? & ?). exists b'.
    split; [apply in_or_app; now right|assumption].
Qed.

Lemma covers_flat_map {A} (f : A -> list (string * list stmt)) (g : A -> A)
    (p : A -> bool) (l : list A) :
  Forall (fun x => p x = true -> covers (f x) (f (g x))) l ->
  forallb p l = true ->
  covers (flat_map f l) (flat_map f (map g l)).
Proof.
  induction 1 as [|x l Hx _ IH]; simpl; intros Hb; [apply covers_nil|].
  apply andb_prop in Hb as [Hb1 Hb2]. apply covers_app; auto.
Qed.

(** Where no function is nested in a function, every definition is
    reached: methods of classes and definitions under compound statements
    and under [async def] included. *)
Lemma visit_covers (s : stmt) :
  no_nested_defs s = true -> covers (function_defs s) (function_defs (visit s)).
Proof.
  induction s using stmt_nested_ind
    with (Q := fun h => no_nested_handler h = true ->
                        covers (handler_defs h) (handler_defs (visit_handler h)));
    simpl; intros Hs; try apply covers_nil;
    repeat (apply andb_prop in Hs; destruct Hs as [Hs ?]);
    repeat apply covers_app;
    try (eapply covers_flat_map; eassumption).
  rewrite (flat_map_nil_Forall function_defs no_defs body); trivial.
  - intros n b [E|[]]. inversion E; subst n b.
    eexists. split; [left; reflexivity|].
    do 5 eexists. split; [reflexivity|]. repeat split; eexists; reflexivity.
  - apply Forall_forall. intros x _. apply no_defs_function_defs.
Qed.

Lemma visit_tree_probes_every_unnested_def (tree : mod_) :
  module_no_nested_defs tree = true ->
  every_def_probed tree (visit_tree tree).
Proof.
  destruct tree as [body]. unfold every_def_probed. simpl. intros Hb.
  eapply covers_flat_map; [|exact Hb].
  apply Forall_forall. intros s _. apply visit_covers.
Qed.

Example method_and_conditional_defs_are_probed :
  every_def_probed Sample.method_tree (visit_tree Sample.method_tree).
Proof. apply visit_tree_probes_every_unnested_def. reflexivity. Qed.

(** C2, at [def outer(): def inner(): pass; return inner]: the visitor
    probes [outer] and returns without visiting its body, so [inner] keeps
    its original body [pass]; the tree has two function definitions and
    the instrumented tree has a probe for one of them only. *)
Theorem nested_function_is_left_without_probe :
  module_defs Sample.nested_tree =
    [("outer", [FunctionDef "inner" [] [Pass] [];
                Return (Some (Name "inner" Load))]);
     ("inner", [Pass])] /\
  (exists probe_outer,
     visit_tree Sample.nested_tree =
       Module [FunctionDef "outer" []
                 (probe_outer ++
                  [FunctionDef "inner" [] [Pass] [];
                   Return (Some (Name "inner" Load))]) []] /\
     probed "outer" (probe_outer ++
                     [FunctionDef "inner" [] [Pass] [];
                      Return (Some (Name "inner" Load))])) /\
  ~ every_def_probed Sample.nested_tree (visit_tree Sample.nested_tree).
Proof.
  split; [reflexivity|]. split.
  - eexists [_; _; _; _]. split; [reflexivity|].
    do 5 eexists. split; [reflexivity|]. repeat split; eexists; reflexivity.
  - intros H. destruct (H "inner" [Pass]) as (body' & Hin & Hp).
    + right. left. reflexivity.
    + destruct Hp as (s1 & s2 & s3 & s4 & rest & -> & _).
      simpl in Hin. destruct Hin as [E|[E|[]]]; discriminate E.
Qed.

(** An [async def] is an [AsyncFunctionDef] node, for which the visitor
    has no method: it gets no probe either. *)
Example async_function_is_left_without_probe :
  visit_tree (Module [AsyncFunctionDef "fetch" ["url"] [Pass] []]) =
  Module [AsyncFunctionDef "fetch" ["url"] [Pass] []].
Proof. reflexivity. Qed.

End Visitor.

(** ** Paths *)

Section Paths.

Import OsPath.

Lemma append_nil_l (s : string) : EmptyString +:+ s = s.
Proof. reflexivity. Qed.

Lemma append_cons a (s t : string) : String a s +:+ t = String a (s +:+ t).
Proof. reflexivity. Qed.

Lemma append_nil_r (s : string) : s +:+ EmptyString = s.
Proof. induction s as [|a s IH]; [reflexivity|]. now rewrite append_cons, IH. Qed.

Lemma substring_0_append (s t : string) (n : nat) :
  (n <= String.length s)%nat -> substring 0 n (s +:+ t) = substring 0 n s.
Proof.
  revert n. induction s as [|a s IH]; intros [|n] Hn; simpl in Hn; try lia.
  - rewrite append_nil_l. destruct t; reflexivity.
  - rewrite append_cons. reflexivity.
  - rewrite append_cons. simpl. now rewrite IH by lia.
Qed.

Lemma substring_0_all (s : string) : substring 0 (String.length s) s = s.
Proof. induction s; simpl; congruence. Qed.

Lemma substring_split (s : string) (n : nat) :
  (n <= String.length s)%nat ->
  substring 0 n s +:+ substring n (String.length s - n) s = s.
Proof.
  revert n. induction s as [|a s IH]; intros [|n] Hn; simpl in *; try reflexivity; try lia.
  - rewrite append_nil_l. f_equal. apply substring_0_all.
  - rewrite append_cons. f_equal. apply IH. lia.
Qed.

Lemma substring_0_length (s : string) (n : nat) :
  (n <= String.length s)%nat -> String.length (substring 0 n s) = n.
Proof.
  revert n. induction s as [|a s IH]; intros [|n] Hn; simpl in *; try reflexivity; try lia.
  rewrite IH by lia. reflexivity.
Qed.

Lemma rfind_from_range c p i last :
  last < i ->
  rfind_from c p i last = last \/
  i <= rfind_from c p i last < i + Z.of_nat (String.length p).
Proof.
  revert i last. induction p as [|a p IH]; intros i last Hl; simpl; [now left|].
  destruct (Ascii.eqb a c).
  - right. destruct (IH (i + 1) i ltac:(lia)) as [->|?]; lia.
  - destruct (IH (i + 1) last ltac:(lia)) as [->|?]; [now left|right; lia].
Qed.

Lemma rfind_range c p : -1 <= rfind c p < Z.of_nat (String.length p).
Proof. unfold rfind. destruct (rfind_from_range c p 0 (-1)); lia. Qed.

Lemma rfind_from_append c s t i last :
  rfind_from c (s +:+ t) i last =
  rfind_from c t (i + Z.of_nat (String.length s)) (rfind_from c s i last).
Proof.
  revert i last. induction s as [|a s IH]; intros i last.
  - now rewrite append_nil_l, Z.add_0_r.
  - rewrite append_cons. simpl. rewrite IH. f_equal. lia.
Qed.

Lemma rfind_append c s t :
  rfind c (s +:+ t) =
  rfind_from c t (Z.of_nat (String.length s)) (rfind c s).
Proof. unfold rfind. now rewrite rfind_from_append. Qed.

Lemma rfind_slice_to c p d :
  rfind c p < d <= Z.of_nat (String.length p) ->
  rfind c (slice_to p d) = rfind c p.
Proof.
  intros Hd. unfold slice_to.
  assert (Hn : (Z.to_nat d <= String.length p)%nat) by lia.
  pose proof (substring_split p _ Hn) as Hp.
  pose proof (substring_0_length p _ Hn) as Hl.
  pose proof (rfind_range c (substring 0 (Z.to_nat d) p)) as Hs.
  pose proof (rfind_range c p) as Hr.
  rewrite <- Hp in Hd at 1. rewrite <- Hp at 2.
  rewrite rfind_append in *.
  destruct (rfind_from_range c
              (substring (Z.to_nat d) (String.length p - Z.to_nat d) p)
              (Z.of_nat (String.length (substring 0 (Z.to_nat d) p)))
              (rfind c (substring 0 (Z.to_nat d) p)) ltac:(lia)) as [E|E].
  - now rewrite E.
  - lia.
Qed.

Lemma slice_to_append s t i :
  i <= Z.of_nat (String.length s) -> slice_to (s +:+ t) i = slice_to s i.
Proof. intros Hi. apply substring_0_append. lia. Qed.

Lemma slice_to_slice_to p d i :
  i <= d <= Z.of_nat (String.length p) ->
  slice_to (slice_to p d) i = slice_to p i.
Proof.
  intros Hd.
  assert (Hn : (Z.to_nat d <= String.length p)%nat) by lia.
  rewrite <- (substring_split p _ Hn) at 2.
  symmetry. apply slice_to_append. unfold slice_to.
  rewrite (substring_0_length p _ Hn). lia.
Qed.

Lemma slice_to_length p d :
  0 <= d <= Z.of_nat (String.length p) ->
  Z.of_nat (String.length (slice_to p d)) = d.
Proof. intros Hd. unfold slice_to. rewrite substring_0_length; lia. Qed.

(** [splitext] returns the path itself, or cuts it at its last dot, which
    then lies behind the last separator. *)
Lemma splitext_cases p :
  splitext p = (p, EmptyString) \/
  (rfind "/" p < rfind "." p /\
   splitext p = (slice_to p (rfind "." p), slice_from p (rfind "." p))).
Proof.
  unfold splitext. destruct (Z.ltb_spec (rfind "/" p) (rfind "." p)) as [H|H]; [|now left].
  generalize (Z.to_nat (rfind "." p - (rfind "/" p + 1))).
  generalize (rfind "/" p + 1) as i.
  intros i n. revert i. induction n as [|n IH]; intros i; simpl; [now left|].
  destruct (negb _); [right; now split|apply IH].
Qed.

Lemma splitext_append p :
  fst (splitext p) +:+ snd (splitext p) = p.
Proof.
  destruct (splitext_cases p) as [->|[H ->]]; simpl.
  - apply append_nil_r.
  - pose proof (rfind_range "/" p). pose proof (rfind_range "." p).
    unfold slice_to, slice_from. apply substring_split. lia.
Qed.

Lemma dirname_instrumented p :
  dirname (fst (splitext p) +:+ "_instrumented.py") = dirname p.
Proof.
  assert (Hsep : rfind "/" (fst (splitext p) +:+ "_instrumented.py") = rfind "/" p
                 /\ rfind "/" p + 1 <= Z.of_nat (String.length (fst (splitext p)))
                 /\ slice_to (fst (splitext p)) (rfind "/" p + 1) = slice_to p (rfind "/" p + 1)).
  { pose proof (rfind_range "/" p). pose proof (rfind_range "." p).
    rewrite rfind_append.
    change (rfind_from "/" "_instrumented.py" ?i ?l) with l.
    destruct (splitext_cases p) as [->|[H1 ->]]; simpl fst.
    - repeat split; lia.
    - rewrite rfind_slice_to by lia. rewrite slice_to_length by lia.
      repeat split; [lia|]. apply slice_to_slice_to. lia. }
  destruct Hsep as (E1 & E2 & E3).
  unfold dirname. rewrite E1, slice_to_append by exact E2. now rewrite E3.
Qed.

Example splitext_examples :
  splitext "lib/tool.pyw" = ("lib/tool", ".pyw") /\
  splitext "add.py" = ("add", ".py") /\
  splitext ".bashrc" = (".bashrc", EmptyString) /\
  splitext "pkg.d/run" = ("pkg.d/run", EmptyString) /\
  splitext "a/..x.tar.gz" = ("a/..x.tar", ".gz").
Proof. repeat split; reflexivity. Qed.

End Paths.

(** ** The execution harness *)

Section Harness.

(** With [check=False], [subprocess.run] returns for a child that ran to
    its end whatever its return code: no [CalledProcessError] is raised
    for the handler of [run_analysis] to catch. *)
Lemma subprocess_run_unchecked argv out err w rc o e files :
  processes w argv (length (spawned w)) = Exited rc o e files ->
  exists cp w',
    subprocess_run argv false false out err w = (Ok cp, w') /\
    returncode cp = rc.
Proof.
  intros Hp. unfold subprocess_run, mbind, M_bind, bind, popen. simpl.
  rewrite Hp.
  destruct out as [[|fo]|], err as [[|fe]|]; simpl;
    do 2 eexists; (split; [reflexivity|reflexivity]).
Qed.

(** The call of [run_analysis] passes [capture_output=True] together with
    [stdout=outfile]: every iteration ends in the handler of [Exception]. *)
Lemma run_iteration_eq f n out i w :
  run_iteration f n out i w =
  (Ok Returned,
   add_logged (ERROR, [Lit "Unexpected error during execution: ";
                       FExn capture_conflict])
     (add_logged (INFO, [Lit "Running iteration "; FInt (i + 1); Lit "/";
                         FInt n]) w)).
Proof. reflexivity. Qed.

Lemma run_analysis_eq f n t out w :
  run_analysis f n t out w =
  let w1 := add_syscall (SysStat f) w in
  match fs w !! f with
  | None =>
      (Ok tt,
       add_logged (ERROR, [Lit "Instrumented file not found: "; FStr f]) w1)
  | Some _ =>
      let w2 := add_syscall (SysOpenWrite out) w1 in
      if bool_decide (out ∈ write_denied w) then
        (Ok tt,
         add_logged (ERROR, [Lit "Error writing to output file: ";
                             FExn (PermissionError out)]) w2)
      else
        let w3 := set_fs (insert out EmptyString) w2 in
        if 0 <? n then
          (Ok tt,
           add_logged (ERROR, [Lit "Unexpected error during execution: ";
                               FExn capture_conflict])
             (add_logged (INFO, [Lit "Running iteration "; FInt 1; Lit "/";
                                 FInt n]) w3))
        else
          (Ok tt,
           add_logged (INFO, [Lit "Analysis completed.  Results written to ";
                              FStr out]) w3)
  end.
Proof.
  unfold run_analysis, mbind, M_bind, bind, os_path_exists.
  destruct (fs w !! f) as [c|]; simpl; [|reflexivity].
  unfold try_except, open_w. simpl.
  destruct (bool_decide (out ∈ write_denied w)); simpl; [reflexivity|].
  destruct (Z.ltb_spec 0 n) as [Hn|Hn].
  - rewrite (seqZ_cons 0 n Hn). reflexivity.
  - rewrite seqZ_nil by lia. reflexivity.
Qed.

(** [run_analysis] returns [None] whatever happened. *)
Lemma run_analysis_returns_None f n t out w :
  fst (run_analysis f n t out w) = Ok tt.
Proof.
  rewrite run_analysis_eq. simpl.
  destruct (fs w !! f); [|reflexivity].
  destruct (bool_decide _); [reflexivity|].
  destruct (0 <? n); reflexivity.
Qed.

(** C1, for every artifact that exists, every [N > 0], every threshold and
    every writable output path, and whatever the children would do:
    [run_analysis] creates the log, logs the [ValueError] of the first
    call of [subprocess.run], and returns [None]; no child process is
    started and the log stays empty. *)
Theorem run_analysis_starts_no_child :
  forall instrumented_file iterations threshold output_file w,
    is_Some (fs w !! instrumented_file) ->
    0 < iterations ->
    output_file ∉ write_denied w ->
    exists w',
      run_analysis instrumented_file iterations threshold output_file w =
        (Ok tt, w') /\
      spawned w' = spawned w /\
      fs w' = <[output_file := EmptyString]> (fs w) /\
      logged w' =
        (logged w ++
         [(INFO, [Lit "Running iteration "; FInt 1; Lit "/"; FInt iterations]);
          (ERROR, [Lit "Unexpected error during execution: ";
                   FExn capture_conflict])])%list.
Proof.
  intros f n t out w [c Hc] Hn Hout.
  rewrite run_analysis_eq, Hc. simpl.
  rewrite bool_decide_eq_false_2 by exact Hout.
  destruct (Z.ltb_spec 0 n) as [_|?]; [|lia].
  eexists. split; [reflexivity|]. split; [|split].
  - unfold spawned. simpl. rewrite <- app_assoc, filter_app. simpl.
    apply app_nil_r.
  - reflexivity.
  - simpl. now rewrite <- app_assoc.
Qed.

Lemma run_analysis_starts_no_child_witness :
  exists w',
    run_analysis "add_instrumented.py" 3 0x1.999999999999ap-5%float
      "timing_analysis.log" Sample.world0 = (Ok tt, w') /\
    spawned w' = spawned Sample.world0 /\
    fs w' = <["timing_analysis.log" := EmptyString]> (fs Sample.world0) /\
    logged w' =
      (logged Sample.world0 ++
       [(INFO, [Lit "Running iteration "; FInt 1; Lit "/"; FInt 3]);
        (ERROR, [Lit "Unexpected error during execution: ";
                 FExn capture_conflict])])%list.
Proof.
  apply (run_analysis_starts_no_child "add_instrumented.py" 3
           0x1.999999999999ap-5%float "timing_analysis.log" Sample.world0).
  - exists "stale". vm_compute. reflexivity.
  - lia.
  - by_decide.
Defined.

(** C8: [run_analysis] does the same, to the same world, for any two
    thresholds: same result, same file system, same log, same calls. *)
Theorem run_analysis_ignores_threshold :
  forall instrumented_file iterations threshold1 threshold2 output_file w,
    run_analysis instrumented_file iterations threshold1 output_file w =
    run_analysis instrumented_file iterations threshold2 output_file w.
Proof.
  intros f n t1 t2 out w.
  (* the closed form of [run_analysis] does not mention the threshold *)
  rewrite (run_analysis_eq f n t1 out w), (run_analysis_eq f n t2 out w).
  reflexivity.
Qed.

End Harness.

(** ** Names and what they refer to *)

Section Names.

Import TimingVisitor Binding.

Lemma existsb_map_Forall {A} (p : A -> bool) (g : A -> A) (l : list A) :
  Forall (fun x => p (g x) = p x) l -> existsb p (map g l) = existsb p l.
Proof. induction 1 as [|x l Hx _ IH]; simpl; congruence. Qed.

(** The visitor changes the bodies of functions only, and those are scopes
    of their own: what a statement binds where it stands is unchanged. *)
Lemma binds_visit id (s : stmt) : binds id (visit s) = binds id s.
Proof.
  induction s using stmt_nested_ind
    with (Q := fun h => handler_binds id (visit_handler h) = handler_binds id h);
    try reflexivity; simpl;
    repeat match goal with
           | H : Forall _ ?l |- context [existsb _ (map _ ?l)] =>
               rewrite (existsb_map_Forall _ _ l H); clear H
           end; reflexivity.
Qed.

Lemma existsb_binds_visit id (l : list stmt) :
  existsb (binds id) (map visit l) = existsb (binds id) l.
Proof.
  apply existsb_map_Forall, Forall_forall. intros s _. apply binds_visit.
Qed.

Lemma rebinds_visit id (s : stmt) : rebinds id (visit s) = rebinds id s.
Proof.
  induction s using stmt_nested_ind
    with (Q := fun h => handler_rebinds id (visit_handler h) =
                        handler_rebinds id h);
    try reflexivity; simpl;
    repeat match goal with
           | H : Forall _ ?l |- context [existsb _ (map _ ?l)] =>
               rewrite (existsb_map_Forall _ _ l H); clear H
           end; reflexivity.
Qed.

Lemma existsb_rebinds_visit id (l : list stmt) :
  existsb (rebinds id) (map visit l) = existsb (rebinds id) l.
Proof.
  apply existsb_map_Forall, Forall_forall. intros s _. apply rebinds_visit.
Qed.

Lemma flat_map_eq_Forall {A B} (f g : A -> list B) (h : A -> A) (l : list A) :
  Forall (fun x => f (h x) = g x) l -> flat_map f (map h l) = flat_map g l.
Proof. induction 1 as [|x l Hx _ IH]; simpl; congruence. Qed.

Lemma referents_visit mb (s : stmt) :
  forall enclosing,
    referents "time" mb enclosing (visit s) = referents "time" mb enclosing s.
Proof.
  induction s using stmt_nested_ind
    with (Q := fun h => forall enclosing,
                 handler_referents "time" mb enclosing (visit_handler h) =
                 handler_referents "time" mb enclosing h);
    intros enclosing; try reflexivity; simpl; unfold local_to;
    rewrite ?existsb_binds_visit;
    repeat match goal with
           | H : Forall _ ?l |- context [flat_map (?f ?e) (map _ ?l)] =>
               rewrite (flat_map_eq_Forall (f e) (f e) _ l);
               [clear H|eapply Forall_impl; [exact H|intros x Hx; apply Hx]]
           end; reflexivity.
Qed.

Lemma artifact_referents_visit (tree : mod_) :
  artifact_referents "time" (visit_tree tree) = artifact_referents "time" tree.
Proof.
  destruct tree as [body]. simpl. rewrite existsb_rebinds_visit.
  apply flat_map_eq_Forall, Forall_forall. intros s _. apply referents_visit.
Qed.

Lemma flat_map_map_Forall {A B} (f : A -> list B) (k : B -> B) (h : A -> A)
    (l : list A) :
  Forall (fun x => f (h x) = map k (f x)) l ->
  flat_map f (map h l) = map k (flat_map f l).
Proof.
  induction 1 as [|x l Hx _ IH]; simpl; [reflexivity|].
  rewrite map_app. congruence.
Qed.

Lemma reached_defs_visit (s : stmt) :
  reached_defs (visit s) = map with_probe (reached_defs s).
Proof.
  induction s using stmt_nested_ind
    with (Q := fun h => reached_handler (visit_handler h) =
                        map with_probe (reached_handler h));
    try reflexivity; simpl; rewrite ?map_app;
    repeat match goal with
           | H : Forall _ ?l |- context [flat_map _ (map _ ?l)] =>
               rewrite (flat_map_map_Forall _ with_probe _ l H); clear H
           end; reflexivity.
Qed.

Lemma module_reached_defs_visit (tree : mod_) :
  module_reached_defs (visit_tree tree) =
  map with_probe (module_reached_defs tree).
Proof.
  destruct tree as [body]. simpl.
  apply flat_map_map_Forall, Forall_forall. intros s _. apply reached_defs_visit.
Qed.

End Names.

(** ** The source instrumenter *)

Section Instrumenter.

Variable ast_parse : string -> option mod_.
Variable ast_unparse : mod_ -> string.

(** What [instrument_code] does, case by case. *)
Lemma instrument_code_eq f w :
  instrument_code ast_parse ast_unparse f w =
  let w1 := add_syscall (SysOpenRead f) w in
  match fs w !! f with
  | None => (Ok None, add_logged (ERROR, [Lit "File not found: "; FStr f]) w1)
  | Some code =>
      if bool_decide (f ∈ read_denied w) then
        (Ok None,
         add_logged (ERROR, [Lit "Error reading file: ";
                             FExn (PermissionError f)]) w1)
      else
        match ast_parse code with
        | None => (Raise (SyntaxError code), w1)
        | Some tree =>
            let text := ast_unparse (TimingVisitor.visit_tree tree) in
            let path := fst (OsPath.splitext f) +:+ "_instrumented.py" in
            let w2 := add_syscall (SysOpenWrite path) w1 in
            if bool_decide (path ∈ write_denied w) then
              (Ok None,
               add_logged (ERROR, [Lit "Error writing instrumented code: ";
                                   FExn (PermissionError path)]) w2)
            else
              (Ok (Some path),
               add_logged (INFO, [Lit "Instrumented code written to ";
                                  FStr path])
                 (add_syscall (SysWrite path text)
                    (add_syscall (SysWrite path ("import time" +:+ NL))
                       (set_fs
                          (fun _ =>
                             <[path := ("import time" +:+ NL) +:+ text]> (fs w))
                          w2))))
        end
  end.
Proof.
  unfold instrument_code, mbind, M_bind, bind, try_except, read_file. simpl.
  destruct (fs w !! f) as [code|]; simpl; [|reflexivity].
  destruct (bool_decide (f ∈ read_denied w)); simpl; [reflexivity|].
  destruct (ast_parse code) as [tree|]; simpl; [|reflexivity].
  unfold open_w. simpl.
  destruct (bool_decide (_ ∈ write_denied w)); simpl; [reflexivity|].
  unfold file_write, logging_info, add_logged, add_syscall, set_fs. simpl.
  do 3 f_equal.
  now rewrite !alter_insert_eq.
Qed.

(** When [instrument_code] returns a path: the file was read and parsed,
    the path is the root of the file name with [_instrumented.py], and the
    file system differs in that one file only. *)
Lemma instrument_code_Some f w path w' :
  instrument_code ast_parse ast_unparse f w = (Ok (Some path), w') ->
  exists code tree,
    fs w !! f = Some code /\
    ast_parse code = Some tree /\
    path = fst (OsPath.splitext f) +:+ "_instrumented.py" /\
    fs w' = <[path := ("import time" +:+ NL) +:+
                       ast_unparse (TimingVisitor.visit_tree tree)]> (fs w).
Proof.
  rewrite instrument_code_eq. simpl.
  destruct (fs w !! f) as [code|]; [|discriminate].
  destruct (bool_decide (f ∈ read_denied w)); [discriminate|].
  destruct (ast_parse code) as [tree|] eqn:Hp; [|discriminate].
  destruct (bool_decide (_ ∈ write_denied w)); [discriminate|].
  intros H. inversion H; subst. exists code, tree.
  repeat split; assumption.
Qed.

(** C6: when the file is there and readable and [ast.parse] rejects its
    text, [instrument_code] neither logs an error nor returns [None]: the
    [SyntaxError] leaves the function.  The file system is as it was. *)
Theorem instrument_code_lets_SyntaxError_escape :
  forall filename code w,
    fs w !! filename = Some code ->
    filename ∉ read_denied w ->
    ast_parse code = None ->
    instrument_code ast_parse ast_unparse filename w =
      (Raise (SyntaxError code), add_syscall (SysOpenRead filename) w).
Proof.
  intros f code w Hf Hr Hp. rewrite instrument_code_eq, Hf. simpl.
  rewrite bool_decide_eq_false_2 by exact Hr. now rewrite Hp.
Qed.

(** C7, amended: the artifact is named by the root of the original name
    (the name without its extension) followed by [_instrumented] and the
    fixed extension [.py]; that is the original's extension exactly when
    the original ends in [.py].  It lies in the directory of the original,
    and the file of that name is created or replaced, no other file
    changing. *)
Theorem artifact_is_named_root_instrumented_py :
  forall filename w path w',
    instrument_code ast_parse ast_unparse filename w = (Ok (Some path), w') ->
    fst (OsPath.splitext filename) +:+ snd (OsPath.splitext filename) =
      filename /\
    path = fst (OsPath.splitext filename) +:+ "_instrumented" +:+ ".py" /\
    (snd (OsPath.splitext filename) = ".py" ->
     named_with_original_extension filename path) /\
    OsPath.dirname path = OsPath.dirname filename /\
    exists code tree,
      fs w !! filename = Some code /\
      ast_parse code = Some tree /\
      fs w' = <[path := ("import time" +:+ NL) +:+
                         ast_unparse (TimingVisitor.visit_tree tree)]> (fs w).
Proof.
  intros f w path w' H.
  destruct (instrument_code_Some _ _ _ _ H) as (code & tree & Hf & Hp & -> & Hfs).
  split; [apply splitext_append|]. split; [reflexivity|]. split; [|split].
  - intros Hext. unfold named_with_original_extension. now rewrite Hext.
  - apply dirname_instrumented.
  - exists code, tree. repeat split; assumption.
Qed.


End Instrumenter.

Lemma instrument_code_lets_SyntaxError_escape_witness :
  instrument_code Sample.parse Sample.unparse "broken.py" Sample.world0 =
    (Raise (SyntaxError Sample.broken_source),
     add_syscall (SysOpenRead "broken.py") Sample.world0).
Proof.
  apply (instrument_code_lets_SyntaxError_escape Sample.parse Sample.unparse
           "broken.py" Sample.broken_source Sample.world0).
  - vm_compute. reflexivity.
  - by_decide.
  - vm_compute. reflexivity.
Defined.

(** C7, as stated, at [lib/tool.pyw]: the artifact is
    [lib/tool_instrumented.py], not [lib/tool_instrumented.pyw]. *)
Lemma artifact_of_pyw_file_is_named_py :
  fst (instrument_code Sample.parse Sample.unparse "lib/tool.pyw"
         Sample.world0) = Ok (Some "lib/tool_instrumented.py") /\
  OsPath.splitext "lib/tool.pyw" = ("lib/tool", ".pyw") /\
  ~ named_with_original_extension "lib/tool.pyw" "lib/tool_instrumented.py".
Proof.
  split; [vm_compute; reflexivity|]. split; [reflexivity|].
  unfold named_with_original_extension. vm_compute. discriminate.
Qed.

Lemma artifact_is_named_root_instrumented_py_witness :
  fst (OsPath.splitext "add.py") +:+ snd (OsPath.splitext "add.py") = "add.py" /\
  "add_instrumented.py" =
    fst (OsPath.splitext "add.py") +:+ "_instrumented" +:+ ".py" /\
  (snd (OsPath.splitext "add.py") = ".py" ->
   named_with_original_extension "add.py" "add_instrumented.py") /\
  OsPath.dirname "add_instrumented.py" = OsPath.dirname "add.py" /\
  exists code tree,
    fs Sample.world0 !! "add.py" = Some code /\
    Sample.parse code = Some tree /\
    fs (snd (instrument_code Sample.parse Sample.unparse "add.py"
               Sample.world0)) =
    <["add_instrumented.py" :=
        ("import time" +:+ NL) +:+
        Sample.unparse (TimingVisitor.visit_tree tree)]> (fs Sample.world0).
Proof.
  apply (artifact_is_named_root_instrumented_py Sample.parse Sample.unparse
           "add.py" Sample.world0 "add_instrumented.py").
  vm_compute. reflexivity.
Defined.


(** In [add.py] nothing binds [time]: the captures of [add] call the
    module. *)
Example captures_of_add_call_the_module :
  Binding.captures_call_the_module Sample.add_tree.
Proof. repeat constructor. Qed.

(** Nor does an [import time] of the source itself change that. *)
Example captures_call_the_module_the_source_imports_too :
  Binding.captures_call_the_module Scene.importing_tree.
Proof. repeat constructor. Qed.


(** Likewise with a parameter named [time]: the captures call the
    argument. *)
Example capture_calls_a_parameter_named_time :
  Binding.artifact_referents "time"
    (TimingVisitor.visit_tree Scene.parameter_tree) =
    [("wait", Binding.LocalVariable)] /\
  ~ Binding.captures_call_the_module Scene.parameter_tree.
Proof.
  split; [reflexivity|].
  intros H. inversion H as [|r l Hr _]; subst. discriminate Hr.
Qed.

(** ** The orchestrator *)

Section Orchestrator.

Variable ast_parse : string -> option mod_.
Variable ast_unparse : mod_ -> string.

(** C9: with an iteration count that is not positive, or a threshold
    outside [0, 1] (NaN included), [main] logs an error and exits with 1
    after the one [os.path.exists] query on the target: no file is opened,
    read, created, truncated or written, no child is started, and the file
    system is as it was.  When the target exists the error is the one of
    the rejected option. *)
Theorem main_rejects_invalid_configuration_before_file_io :
  forall args w,
    iterations args <= 0 \/ in_unit_interval (threshold args) = false ->
    exists msg w',
      main ast_parse ast_unparse args w = (Raise (SystemExit 1), w') /\
      exit_status (fst (main ast_parse ast_unparse args w)) = 1 /\
      fs w' = fs w /\
      syscalls w' = (syscalls w ++ [SysStat (target_file args)])%list /\
      logged w' = (logged w ++ [(ERROR, msg)])%list /\
      (is_Some (fs w !! target_file args) ->
       msg = [Lit "Number of iterations must be greater than 0."] \/
       msg = [Lit "Threshold must be between 0 and 1."]).
Proof.
  intros args w Hbad.
  unfold main, mbind, M_bind, bind, os_path_exists.
  destruct (fs w !! target_file args) as [c|]; simpl.
  - destruct (Z.leb_spec (iterations args) 0) as [Hn|Hn]; simpl.
    + do 2 eexists. repeat split. intros _. now left.
    + destruct Hbad as [Hbad|Hbad]; [lia|]. rewrite Hbad. simpl.
      do 2 eexists. repeat split. intros _. now right.
  - do 2 eexists. repeat split. intros [? ?]. discriminate.
Qed.

(** [main] once the configuration is accepted. *)
Lemma main_valid_eq args w :
  is_Some (fs w !! target_file args) ->
  0 < iterations args ->
  in_unit_interval (threshold args) = true ->
  dependency_check args = false ->
  main ast_parse ast_unparse args w =
  let w0 :=
    add_logged (INFO, [Lit "Output file: "; FStr (output args)])
      (add_logged (INFO, [Lit "Threshold: "; FFloat (threshold args)])
         (add_logged (INFO, [Lit "Number of iterations: ";
                             FInt (iterations args)])
            (add_logged (INFO, [Lit "Starting timing attack analysis on ";
                                FStr (target_file args); Lit "..."])
               (add_syscall (SysStat (target_file args)) w)))) in
  match instrument_code ast_parse ast_unparse (target_file args) w0 with
  | (Raise e, w1) => (Raise e, w1)
  | (Ok r, w1) =>
      if falsy r then
        (Raise (SystemExit 1),
         add_logged (ERROR, [Lit "Failed to instrument code. Exiting."]) w1)
      else
        match run_analysis (default EmptyString r) (iterations args)
                (threshold args) (output args) w1 with
        | (Raise e, w2) => (Raise e, w2)
        | (Ok _, w2) =>
            (Ok tt,
             add_logged (INFO, [Lit "Timing attack analysis completed."]) w2)
        end
  end.
Proof.
  intros [c Hc] Hn Ht Hd.
  unfold main, mbind, M_bind, bind, os_path_exists.
  rewrite Hc. simpl.
  destruct (Z.leb_spec (iterations args) 0) as [Hn'|_]; [lia|].
  rewrite Ht, Hd. simpl.
  destruct (instrument_code _ _ _ _) as [[r|e] w1]; [|reflexivity].
  destruct (falsy r); [reflexivity|].
  destruct (run_analysis _ _ _ _ _) as [[[]|e] w2]; reflexivity.
Qed.

Lemma falsy_instrumented root : falsy (Some (root +:+ "_instrumented.py")) = false.
Proof.
  simpl. apply String.eqb_neq.
  destruct root; [rewrite append_nil_l|rewrite append_cons]; discriminate.
Qed.

(** C5, for every accepted configuration whose target is read, parsed and
    instrumented: [run_analysis] fails, at the output file or at its first
    iteration, and logs the error; [main] then logs that the analysis is
    completed and the process exits with 0. *)
Theorem main_exits_0_after_harness_failure :
  forall args w code tree,
    fs w !! target_file args = Some code ->
    target_file args ∉ read_denied w ->
    ast_parse code = Some tree ->
    fst (OsPath.splitext (target_file args)) +:+ "_instrumented.py"
      ∉ write_denied w ->
    0 < iterations args ->
    in_unit_interval (threshold args) = true ->
    dependency_check args = false ->
    exists w' failure,
      main ast_parse ast_unparse args w = (Ok tt, w') /\
      exit_status (fst (main ast_parse ast_unparse args w)) = 0 /\
      spawned w' = spawned w /\
      last (logged w') = Some (INFO, [Lit "Timing attack analysis completed."]) /\
      In (ERROR, failure) (logged w') /\
      (failure = [Lit "Error writing to output file: ";
                  FExn (PermissionError (output args))] \/
       failure = [Lit "Unexpected error during execution: ";
                  FExn capture_conflict]).
Proof.
  intros args w code tree Hc Hr Hp Hw Hn Ht Hd.
  rewrite (main_valid_eq args w (ex_intro _ code Hc) Hn Ht Hd).
  cbv zeta. rewrite instrument_code_eq. simpl fs. simpl read_denied.
  simpl write_denied. rewrite Hc. cbv zeta.
  rewrite (bool_decide_eq_false_2 _ Hr), Hp.
  rewrite (bool_decide_eq_false_2 _ Hw).
  rewrite falsy_instrumented. simpl default.
  rewrite run_analysis_eq. simpl fs. simpl write_denied. cbv zeta.
  rewrite lookup_insert_eq.
  destruct (Z.ltb_spec 0 (iterations args)) as [_|?]; [|lia].
  destruct (bool_decide (output args ∈ write_denied w)).
  - do 2 eexists. split; [reflexivity|]. split; [reflexivity|].
    split; [|split; [|split; [|left; reflexivity]]].
    + unfold spawned. simpl. rewrite <- !app_assoc, filter_app. simpl.
      apply app_nil_r.
    + simpl. rewrite last_snoc. reflexivity.
    + simpl. apply in_or_app. left. apply in_or_app. right. now left.
  - do 2 eexists. split; [reflexivity|]. split; [reflexivity|].
    split; [|split; [|split; [|right; reflexivity]]].
    + unfold spawned. simpl. rewrite <- !app_assoc, filter_app. simpl.
      apply app_nil_r.
    + simpl. rewrite last_snoc. reflexivity.
    + simpl. apply in_or_app. left. apply in_or_app. right. now left.
Qed.

End Orchestrator.

Lemma main_rejects_invalid_configuration_witness :
  exists msg w',
    main Sample.parse Sample.unparse
      {| target_file := "add.py"; iterations := 0;
         threshold := 0x1.999999999999ap-5%float;
         output := "timing_analysis.log"; dependency_check := false |}
      Sample.world0 = (Raise (SystemExit 1), w') /\
    exit_status
      (fst (main Sample.parse Sample.unparse
              {| target_file := "add.py"; iterations := 0;
                 threshold := 0x1.999999999999ap-5%float;
                 output := "timing_analysis.log"; dependency_check := false |}
              Sample.world0)) = 1 /\
    fs w' = fs Sample.world0 /\
    syscalls w' = (syscalls Sample.world0 ++ [SysStat "add.py"])%list /\
    logged w' = (logged Sample.world0 ++ [(ERROR, msg)])%list /\
    (is_Some (fs Sample.world0 !! "add.py") ->
     msg = [Lit "Number of iterations must be greater than 0."] \/
     msg = [Lit "Threshold must be between 0 and 1."]).
Proof.
  apply (main_rejects_invalid_configuration_before_file_io Sample.parse
           Sample.unparse
           {| target_file := "add.py"; iterations := 0;
              threshold := 0x1.999999999999ap-5%float;
              output := "timing_analysis.log"; dependency_check := false |}
           Sample.world0).
  left. simpl. lia.
Defined.

(** The same with a threshold that is not a number. *)
Example main_rejects_nan_threshold :
  fst (main Sample.parse Sample.unparse
         {| target_file := "add.py"; iterations := 3;
            threshold := PrimFloat.nan;
            output := "timing_analysis.log"; dependency_check := false |}
         Sample.world0) = Raise (SystemExit 1).
Proof. vm_compute. reflexivity. Qed.

Lemma main_exits_0_after_harness_failure_witness :
  exists w' failure,
    main Sample.parse Sample.unparse Sample.args0 Sample.world0 = (Ok tt, w') /\
    exit_status
      (fst (main Sample.parse Sample.unparse Sample.args0 Sample.world0)) = 0 /\
    spawned w' = spawned Sample.world0 /\
    last (logged w') = Some (INFO, [Lit "Timing attack analysis completed."]) /\
    In (ERROR, failure) (logged w') /\
    (failure = [Lit "Error writing to output file: ";
                FExn (PermissionError (output Sample.args0))] \/
     failure = [Lit "Unexpected error during execution: ";
                FExn capture_conflict]).
Proof.
  apply (main_exits_0_after_harness_failure Sample.parse Sample.unparse
           Sample.args0 Sample.world0 Sample.add_source Sample.add_tree).
  - vm_compute. reflexivity.
  - by_decide.
  - vm_compute. reflexivity.
  - by_decide.
  - simpl. lia.
  - vm_compute. reflexivity.
  - reflexivity.
Defined.

(** The log that cannot be opened: the error is logged and the exit
    status is 0 all the same. *)
Example main_exits_0_when_the_log_cannot_be_opened :
  let r := main Sample.parse Sample.unparse
             {| target_file := "add.py"; iterations := 3;
                threshold := 0x1.999999999999ap-5%float;
                output := "/proc/version"; dependency_check := false |}
             Sample.world0 in
  exit_status (fst r) = 0 /\
  In (ERROR, [Lit "Error writing to output file: ";
              FExn (PermissionError "/proc/version")]) (logged (snd r)).
Proof. vm_compute. split; [reflexivity|]. tauto. Qed.

(** An unparsable target ends [main] with the traceback of the
    [SyntaxError]; no error is logged and no artifact is written. *)
Example main_on_unparsable_target :
  let r := main Sample.parse Sample.unparse
             {| target_file := "broken.py"; iterations := 3;
                threshold := 0x1.999999999999ap-5%float;
                output := "timing_analysis.log"; dependency_check := false |}
             Sample.world0 in
  fst r = Raise (SyntaxError Sample.broken_source) /\
  forallb (fun l => match fst l with ERROR => false | INFO => true end)
    (logged (snd r)) = true /\
  fs (snd r) = fs Sample.world0.
Proof. vm_compute. repeat split; reflexivity. Qed.
(** ** More on the visitor *)

Section VisitorMore.
Import TimingVisitor.

Lemma signatures_visit (s : stmt) :
  Binding.signatures (visit s) = Binding.signatures s.
Proof.
  induction s using stmt_nested_ind
    with (Q := fun h => Binding.handler_signatures (visit_handler h) =
                        Binding.handler_signatures h);
    try reflexivity; simpl; rewrite ?flat_map_map;
    repeat match goal with
           | H : Forall _ ?l |- context [flat_map _ ?l] =>
               rewrite (flat_map_ext_Forall _ _ l H); clear H
           end; reflexivity.
Qed.

(** The instrumented tree defines the same functions as the original,
    [async] ones, nested ones and methods included, in the same order,
    each under the same name, with the same parameters and decorators:
    the visitor adds, drops and renames no definition. *)
Theorem visit_tree_keeps_the_signatures :
  forall tree,
    Binding.module_signatures (visit_tree tree) =
    Binding.module_signatures tree.
Proof.
  intros [body]. simpl. rewrite flat_map_map.
  apply flat_map_ext_Forall, Forall_forall. intros s _. apply signatures_visit.
Qed.

Lemma map_id_Forall {A} (g : A -> A) (p : A -> bool) (l : list A) :
  Forall (fun x => p x = true -> g x = x) l ->
  forallb p l = true -> map g l = l.
Proof.
  induction 1 as [|x l Hx _ IH]; simpl; [reflexivity|].
  intros Hb. apply andb_prop in Hb as [Hb1 Hb2].
  now rewrite (Hx Hb1), (IH Hb2).
Qed.

Lemma visit_no_defs (s : stmt) : no_defs s = true -> visit s = s.
Proof.
  induction s using stmt_nested_ind
    with (Q := fun h => no_defs_handler h = true -> visit_handler h = h);
    simpl; intros Hs; try reflexivity; try discriminate;
    repeat (apply andb_prop in Hs; destruct Hs as [Hs ?]);
    repeat match goal with
           | H : Forall _ ?l, Hb : forallb _ ?l = true |- _ =>
               rewrite (map_id_Forall _ _ l H Hb); clear H Hb
           end; reflexivity.
Qed.

(** A module without any [def] comes out of the visitor as it went in,
    classes and compound statements included. *)
Theorem visit_tree_without_function_defs_is_identity :
  forall body,
    forallb no_defs body = true ->
    visit_tree (Module body) = Module body.
Proof.
  intros body Hb. simpl. f_equal.
  apply (map_id_Forall visit no_defs); [|exact Hb].
  apply Forall_forall. intros s _. apply visit_no_defs.
Qed.

End VisitorMore.

(** ** More on paths *)

Section PathsMore.
Import OsPath.

(** Two scans of the same string from different offsets find the same
    occurrence, or both find none. *)
Lemma rfind_from_shift c p i last j last' :
  (rfind_from c p i last = last /\ rfind_from c p j last' = last') \/
  (0 <= rfind_from c p i last - i /\
   rfind_from c p i last - i = rfind_from c p j last' - j).
Proof.
  revert i last j last'. induction p as [|a p IH]; intros i last j last'; simpl.
  - now left.
  - destruct (Ascii.eqb a c).
    + right. destruct (IH (i + 1) i (j + 1) j) as [[-> ->]|[? ?]]; lia.
    + destruct (IH (i + 1) last (j + 1) last') as [[-> ->]|[? ?]];
        [now left|right; lia].
Qed.

Lemma rfind_from_absent c p i last :
  last < i -> rfind_from c p i last = last -> rfind c p = -1.
Proof.
  intros Hl E. unfold rfind.
  destruct (rfind_from_shift c p i last 0 (-1)) as [[_ ?]|[? ?]]; [assumption|lia].
Qed.

Lemma append_cancel_l (s a b : string) : s +:+ a = s +:+ b -> a = b.
Proof.
  induction s as [|x s IH]; [now rewrite !append_nil_l|].
  rewrite !append_cons. intros E. injection E as E. auto.
Qed.

Lemma slice_from_0 p : slice_from p 0 = p.
Proof.
  unfold slice_from. simpl. rewrite Nat.sub_0_r. apply substring_0_all.
Qed.

Lemma slice_from_cons a p d :
  0 <= d -> slice_from (String a p) (d + 1) = slice_from p d.
Proof.
  intros Hd. unfold slice_from.
  replace (Z.to_nat (d + 1)) with (S (Z.to_nat d)) by lia. reflexivity.
Qed.

(** The text from the last occurrence of [c] on starts with [c] and holds
    no other [c]. *)
Lemma slice_from_rfind c p :
  0 <= rfind c p ->
  exists e, slice_from p (rfind c p) = String c e /\ rfind c e = -1.
Proof.
  induction p as [|a p IH]; [unfold rfind; simpl; lia|].
  unfold rfind at 1 2. simpl rfind_from. change (0 + 1) with 1. intros Hd.
  destruct (rfind_from_shift c p 1 (if Ascii.eqb a c then 0 else -1) 0 (-1))
    as [[E1 E2]|[H1 H2]].
  - rewrite E1 in *. destruct (Ascii.eqb_spec a c) as [->|]; [|lia].
    exists p. split; [apply slice_from_0|exact E2].
  - fold (rfind c p) in H2.
    replace (rfind_from c p 1 (if Ascii.eqb a c then 0 else -1))
      with (rfind c p + 1) by lia.
    rewrite slice_from_cons by lia. apply IH. lia.
Qed.

Lemma rfind_slice_from_absent c p d :
  rfind c p < d <= Z.of_nat (String.length p) ->
  rfind c (slice_from p d) = -1.
Proof.
  intros Hd.
  assert (Hn : (Z.to_nat d <= String.length p)%nat) by lia.
  pose proof (substring_split p _ Hn) as Hp.
  pose proof (substring_0_length p _ Hn) as Hl.
  pose proof (rfind_range c (substring 0 (Z.to_nat d) p)) as Hs.
  destruct Hd as [Hd Hd']. rewrite <- Hp in Hd at 1.
  rewrite rfind_append in Hd. unfold slice_from.
  destruct (rfind_from_range c
              (substring (Z.to_nat d) (String.length p - Z.to_nat d) p)
              (Z.of_nat (String.length (substring 0 (Z.to_nat d) p)))
              (rfind c (substring 0 (Z.to_nat d) p)) ltac:(lia)) as [E|E].
  - eapply rfind_from_absent; [|exact E]. lia.
  - exfalso. destruct E as [E _]. revert Hd E Hl.
    generalize (rfind_from c
      (substring (Z.to_nat d) (String.length p - Z.to_nat d) p)
      (Z.of_nat (String.length (substring 0 (Z.to_nat d) p)))
      (rfind c (substring 0 (Z.to_nat d) p))).
    generalize (String.length (substring 0 (Z.to_nat d) p)). lia.
Qed.

Lemma rfind_tail_absent c a e : rfind c (String a e) = -1 -> rfind c e = -1.
Proof.
  unfold rfind. simpl. change (0 + 1) with 1. intros E.
  assert (Hl : (if Ascii.eqb a c then 0 else -1) < 1)
    by (destruct (Ascii.eqb a c); lia).
  destruct (rfind_from_range c e 1 _ Hl) as [E'|E']; [|lia].
  exact (rfind_from_absent c e 1 _ Hl E').
Qed.

(** [splitext] cuts the path in two parts that give it back, and the
    extension is empty or a dot followed by text with no dot and no
    separator. *)
Theorem splitext_splits_at_the_last_dot :
  forall p,
    fst (splitext p) +:+ snd (splitext p) = p /\
    (snd (splitext p) = EmptyString \/
     exists e, snd (splitext p) = String "." e /\
               rfind "." e = -1 /\ rfind "/" e = -1).
Proof.
  intros p. split; [apply splitext_append|].
  destruct (splitext_cases p) as [->|[Hlt ->]]; [now left|]. right. simpl snd.
  pose proof (rfind_range "/" p). pose proof (rfind_range "." p).
  destruct (slice_from_rfind "." p ltac:(lia)) as (e & He & Hdot).
  exists e. repeat split; trivial.
  apply (rfind_tail_absent "/" "."). rewrite <- He.
  apply rfind_slice_from_absent. lia.
Qed.

(** The artifact is never the file it is made from. *)
Lemma artifact_differs p : fst (splitext p) +:+ "_instrumented.py" <> p.
Proof.
  intros E. destruct (splitext_splits_at_the_last_dot p) as [Hp Hext].
  rewrite <- Hp in E at 2. apply append_cancel_l in E.
  destruct Hext as [Hext|(e & Hext & _)]; rewrite Hext in E; discriminate.
Qed.

Lemma splitext_loop_None p dot n : forall i,
  0 <= i ->
  (forall k, i <= k < i + Z.of_nat n ->
             substring (Z.to_nat k) 1 p = ".") ->
  splitext_loop p i dot n = None.
Proof.
  induction n as [|n IH]; intros i Hi Hall; simpl; [reflexivity|].
  rewrite (Hall i) by lia. simpl. apply IH; [lia|].
  intros k Hk. apply Hall. lia.
Qed.

Lemma splitext_loop_Some p dot n : forall i k,
  0 <= i -> i <= k < i + Z.of_nat n ->
  substring (Z.to_nat k) 1 p <> "." ->
  splitext_loop p i dot n = Some (slice_to p dot, slice_from p dot).
Proof.
  induction n as [|n IH]; intros i k Hi Hk Hne; simpl; [lia|].
  destruct (String.eqb_spec (substring (Z.to_nat i) 1 p) ".") as [E|E];
    simpl; [|reflexivity].
  apply (IH (i + 1) k); [lia| |exact Hne].
  assert (k <> i) by (intros ->; contradiction). lia.
Qed.

(** The extension is empty exactly when nothing but dots stands between
    the last separator and the last dot: no dot at all in the last
    component, or only leading dots as in [.bashrc]. *)
Theorem splitext_ignores_leading_dots :
  forall p,
    snd (splitext p) = EmptyString <->
    (forall k, rfind "/" p < k < rfind "." p ->
               substring (Z.to_nat k) 1 p = ".").
Proof.
  intros p. pose proof (rfind_range "/" p) as Hsep.
  pose proof (rfind_range "." p) as Hdot.
  unfold splitext.
  destruct (Z.ltb_spec (rfind "/" p) (rfind "." p)) as [Hlt|Hge].
  - split.
    + intros Hext k Hk.
      destruct (String.eqb_spec (substring (Z.to_nat k) 1 p) ".") as [E|E];
        [exact E|exfalso].
      rewrite (splitext_loop_Some p _ _ (rfind "/" p + 1) k) in Hext;
        [|lia|lia|exact E].
      simpl in Hext.
      destruct (slice_from_rfind "." p ltac:(lia)) as (e & He & _).
      rewrite He in Hext. discriminate.
    + intros Hall. rewrite splitext_loop_None; [reflexivity|lia|].
      intros k Hk. apply Hall. lia.
  - split; [|reflexivity]. intros _ k Hk. lia.
Qed.

End PathsMore.

(** ** More on the instrumenter *)

Section InstrumenterMore.

Variable ast_parse : string -> option mod_.
Variable ast_unparse : mod_ -> string.

Lemma spawned_app_no_spawn w cs :
  forallb (fun c => negb (is_spawn c)) cs = true ->
  filter is_spawn (syscalls w ++ cs)%list = spawned w.
Proof.
  intros H. unfold spawned. rewrite filter_app.
  assert (E : filter is_spawn cs = []).
  { induction cs as [|c cs IH]; [reflexivity|]. simpl in H.
    apply andb_prop in H as [Hc Hcs]. rewrite filter_cons.
    destruct (decide (is_spawn c)) as [Hs|_]; [|auto].
    destruct (is_spawn c); [discriminate|contradiction]. }
  rewrite E. apply app_nil_r.
Qed.


(** When the file is missing or may not be read, when [ast.parse]
    rejects its text, or when the artifact may not be opened for writing,
    [instrument_code] returns no path and the file system is as it was:
    no artifact, not even an empty one. *)
Theorem instrument_code_stopped_early_leaves_the_files :
  forall filename w,
    fs w !! filename = None \/
    filename ∈ read_denied w \/
    (exists code, fs w !! filename = Some code /\ ast_parse code = None) \/
    fst (OsPath.splitext filename) +:+ "_instrumented.py" ∈ write_denied w ->
    fs (snd (instrument_code ast_parse ast_unparse filename w)) = fs w /\
    forall path,
      fst (instrument_code ast_parse ast_unparse filename w) <> Ok (Some path).
Proof.
  intros f w H. rewrite instrument_code_eq. cbv zeta.
  destruct (fs w !! f) as [code|] eqn:Hf; [|split; [reflexivity|discriminate]].
  destruct (bool_decide (f ∈ read_denied w)) eqn:Hr;
    [split; [reflexivity|discriminate]|].
  destruct (ast_parse code) as [tree|] eqn:Hp;
    [|split; [reflexivity|discriminate]].
  destruct (bool_decide (_ ∈ write_denied w)) eqn:Hw;
    [split; [reflexivity|discriminate]|].
  exfalso. apply bool_decide_eq_false in Hr, Hw.
  destruct H as [H|[H|[(code' & H & Hn)|H]]]; try contradiction;
    try discriminate.
  assert (code' = code) by congruence. subst code'. congruence.
Qed.


End InstrumenterMore.

(** ** More on the harness *)

Section HarnessMore.

(** Whatever its arguments and the world, [run_analysis] returns [None]
    without raising, starts no process, changes no file but the output
    file, and leaves that one as it was or empty. *)
Theorem run_analysis_returns_and_touches_only_the_log :
  forall instrumented_file iterations threshold output_file w,
    let r := run_analysis instrumented_file iterations threshold output_file w in
    fst r = Ok tt /\
    spawned (snd r) = spawned w /\
    (forall p, p <> output_file -> fs (snd r) !! p = fs w !! p) /\
    (fs (snd r) !! output_file = fs w !! output_file \/
     fs (snd r) !! output_file = Some EmptyString).
Proof.
  intros f n t out w r. subst r. rewrite run_analysis_eq. cbv zeta.
  destruct (fs w !! f) as [c|].
  - destruct (bool_decide (out ∈ write_denied w)).
    + repeat split; [|now left]. simpl. unfold spawned. simpl.
      rewrite <- app_assoc. apply (spawned_app_no_spawn w [_; _]). reflexivity.
    + assert (Hsp : filter is_spawn
                      ((syscalls w ++ [SysStat f]) ++ [SysOpenWrite out])%list
                    = spawned w).
      { rewrite <- app_assoc. apply (spawned_app_no_spawn w [_; _]).
        reflexivity. }
      destruct (0 <? n); (split; [reflexivity|]); (split; [exact Hsp|]);
        (split; [intros p Hp; simpl; now rewrite lookup_insert_ne
                |right; simpl; apply lookup_insert_eq]).
  - repeat split; [|now left].
    apply (spawned_app_no_spawn w [_]). reflexivity.
Qed.

(** Without the instrumented file [run_analysis] logs the error after
    the one existence check and stops: the output file is neither created
    nor truncated. *)
Theorem run_analysis_without_artifact_creates_no_log :
  forall instrumented_file iterations threshold output_file w,
    fs w !! instrumented_file = None ->
    exists w',
      run_analysis instrumented_file iterations threshold output_file w =
        (Ok tt, w') /\
      fs w' = fs w /\
      syscalls w' = (syscalls w ++ [SysStat instrumented_file])%list /\
      logged w' =
        (logged w ++
         [(ERROR, [Lit "Instrumented file not found: ";
                   FStr instrumented_file])])%list.
Proof.
  intros f n t out w Hf. rewrite run_analysis_eq, Hf. cbv zeta.
  eexists. repeat split.
Qed.

(** With an iteration count that is not positive the loop runs no pass:
    [run_analysis] creates an empty log and reports the analysis as
    completed. *)
Theorem run_analysis_without_iterations_reports_completion :
  forall instrumented_file iterations threshold output_file w,
    is_Some (fs w !! instrumented_file) ->
    iterations <= 0 ->
    output_file ∉ write_denied w ->
    exists w',
      run_analysis instrumented_file iterations threshold output_file w =
        (Ok tt, w') /\
      fs w' = <[output_file := EmptyString]> (fs w) /\
      logged w' =
        (logged w ++
         [(INFO, [Lit "Analysis completed.  Results written to ";
                  FStr output_file])])%list.
Proof.
  intros f n t out w [c Hc] Hn Hout. rewrite run_analysis_eq, Hc. cbv zeta.
  rewrite bool_decide_eq_false_2 by exact Hout.
  destruct (Z.ltb_spec 0 n) as [?|_]; [lia|].
  eexists. repeat split.
Qed.

(** When the output path is the instrumented file itself, opening the
    log truncates the artifact: it is empty afterwards. *)
Theorem run_analysis_on_its_own_artifact_empties_it :
  forall instrumented_file iterations threshold w,
    is_Some (fs w !! instrumented_file) ->
    instrumented_file ∉ write_denied w ->
    fs (snd (run_analysis instrumented_file iterations threshold
               instrumented_file w)) !! instrumented_file =
    Some EmptyString.
Proof.
  intros f n t w [c Hc] Hout. rewrite run_analysis_eq, Hc. cbv zeta.
  rewrite bool_decide_eq_false_2 by exact Hout.
  destruct (0 <? n); simpl; apply lookup_insert_eq.
Qed.

End HarnessMore.

(** ** The dependency check *)

Section DependenciesMore.

Lemma spawned_snoc_spawn w w1 argv :
  syscalls w1 = (syscalls w ++ [SysSpawn argv])%list ->
  length (spawned w1) = S (length (spawned w)).
Proof.
  intros E. unfold spawned. rewrite E, filter_app, length_app. simpl. lia.
Qed.

(** One pass of the loop does nothing to the world but starting the
    command, except for what the command and the import do to the
    files. *)
Lemma check_dependency_world acc dep w :
  let w1 := snd (check_dependency acc dep w) in
  processes w1 = processes w /\ modules w1 = modules w /\
  logged w1 = logged w /\
  syscalls w1 = (syscalls w ++ [SysSpawn [dep; "--version"]])%list.
Proof.
  unfold check_dependency, subprocess_run, import_, popen, redirected,
    child_ran.
  unfold try_except, mbind, M_bind, bind, mret, M_ret, ret, raise. simpl.
  destruct (processes w [dep; "--version"] (length (spawned w)))
    as [e|rc o e files]; simpl.
  - destruct e; simpl; try (repeat split; fail).
    destruct (modules w dep) as [fi|e' fi]; simpl; [repeat split|].
    destruct e'; simpl; repeat split.
  - destruct (rc =? 0); simpl; [repeat split|].
    destruct (modules w dep) as [fi|e' fi]; simpl; [repeat split|].
    destruct e'; simpl; repeat split.
Qed.

(** One pass of the loop for a tool whose check is settled. *)
Lemma check_dependency_settled acc dep w :
  Deps.settled (modules w) dep
    (processes w [dep; "--version"] (length (spawned w))) = true ->
  fst (check_dependency acc dep w) =
  Ok (acc ++
      if Deps.found (modules w) dep
           (processes w [dep; "--version"] (length (spawned w)))
      then [] else [dep])%list.
Proof.
  unfold check_dependency, subprocess_run, import_, popen, redirected,
    child_ran.
  unfold try_except, mbind, M_bind, bind, mret, M_ret, ret, raise. simpl.
  destruct (processes w [dep; "--version"] (length (spawned w)))
    as [e|rc o e files]; simpl.
  - destruct e; try discriminate. reflexivity.
  - destruct (rc =? 0); simpl; [now rewrite app_nil_r|].
    destruct (modules w dep) as [fi|e' fi]; simpl; [now rewrite app_nil_r|].
    destruct e'; try discriminate. reflexivity.
Qed.

Lemma for_fold_check_dependency deps : forall acc w,
  Deps.all_settled (processes w) (modules w) (length (spawned w)) deps = true ->
  exists w',
    for_fold deps acc check_dependency w =
      (Ok (acc ++ Deps.missing (processes w) (modules w)
                    (length (spawned w)) deps)%list, w') /\
    processes w' = processes w /\ modules w' = modules w /\
    logged w' = logged w /\
    syscalls w' =
      (syscalls w ++ map (fun dep => SysSpawn [dep; "--version"]) deps)%list.
Proof.
  induction deps as [|dep deps IH]; intros acc w H; simpl in *.
  - eexists. rewrite !app_nil_r. repeat split.
  - apply andb_prop in H as [H1 H2].
    unfold mbind, M_bind, bind.
    pose proof (check_dependency_settled acc dep w H1) as Hr.
    destruct (check_dependency_world acc dep w) as (Hp & Hm & Hl & Hs).
    destruct (check_dependency acc dep w) as [r w1]. simpl in *. subst r.
    destruct (IH (acc ++ if Deps.found (modules w) dep
                              (processes w [dep; "--version"]
                                 (length (spawned w)))
                         then [] else [dep])%list w1)
      as (w' & E & Hp' & Hm' & Hl' & Hs').
    + rewrite Hp, Hm, (spawned_snoc_spawn w w1 _ Hs). exact H2.
    + exists w'. rewrite E, Hp, Hm, (spawned_snoc_spawn w w1 _ Hs).
      rewrite <- app_assoc. repeat split; try congruence.
      rewrite Hs', Hs, <- app_assoc. reflexivity.
Qed.

(** When the check of each tool is settled (its program does not exist,
    or its [--version] command runs to its end and, if it fails, the
    import that follows succeeds or raises [ImportError]),
    [check_dependencies] starts the four commands in order and returns
    [True] exactly when no tool is missing; a tool is missing when its
    program does not exist, or when the command fails and the import
    raises [ImportError].  The missing tools are logged in one error, in
    order, joined by commas; nothing else is logged. *)
Theorem check_dependencies_reports_the_missing_tools :
  forall w,
    Deps.all_settled (processes w) (modules w) (length (spawned w))
      Deps.tools = true ->
    let absent :=
      Deps.missing (processes w) (modules w) (length (spawned w)) Deps.tools in
    exists w',
      check_dependencies w =
        (Ok (match absent with [] => true | _ => false end), w') /\
      syscalls w' =
        (syscalls w ++
         map (fun dep => SysSpawn [dep; "--version"]) Deps.tools)%list /\
      logged w' =
        (logged w ++
         match absent with
         | [] => []
         | _ => [(ERROR, [Lit "Missing dependencies: ";
                          FStr (String.concat ", " absent)])]
         end)%list.
Proof.
  intros w H absent.
  destruct (for_fold_check_dependency Deps.tools [] w H)
    as (w' & E & _ & _ & Hlog & Hsys).
  unfold check_dependencies, mbind, M_bind, bind.
  change ["bandit"; "flake8"; "pylint"; "pyre-check"] with Deps.tools.
  rewrite E. simpl app. fold absent.
  destruct absent as [|a l].
  - eexists. split; [reflexivity|]. simpl. rewrite app_nil_r.
    repeat split; trivial.
  - eexists. split; [reflexivity|]. simpl. rewrite Hlog. repeat split; trivial.
Qed.

Lemma for_fold_check_dependency_raises pre : forall dep post acc w e,
  Deps.all_settled (processes w) (modules w) (length (spawned w)) pre = true ->
  processes w [dep; "--version"] (length (spawned w) + length pre) =
    NotStarted e ->
  Deps.escapes e = true ->
  fst (for_fold (pre ++ dep :: post) acc check_dependency w) = Raise e /\
  logged (snd (for_fold (pre ++ dep :: post) acc check_dependency w)) =
    logged w /\
  syscalls (snd (for_fold (pre ++ dep :: post) acc check_dependency w)) =
    (syscalls w ++
     map (fun dep => SysSpawn [dep; "--version"]) (pre ++ [dep]))%list.
Proof.
  induction pre as [|d pre IH]; intros dep post acc w e Hpre Hp He; simpl in *.
  - rewrite Nat.add_0_r in Hp.
    unfold mbind, M_bind, bind.
    assert (E : fst (check_dependency acc dep w) = Raise e).
    { unfold check_dependency, subprocess_run, import_, popen, redirected.
      unfold try_except, mbind, M_bind, bind, mret, M_ret, ret, raise. simpl.
      rewrite Hp. simpl. destruct e; try discriminate; reflexivity. }
    destruct (check_dependency_world acc dep w) as (_ & _ & Hl & Hs).
    destruct (check_dependency acc dep w) as [[?|?] w1]; simpl in *;
      [discriminate|]. inversion E; subst. repeat split; trivial.
  - apply andb_prop in Hpre as [H1 H2].
    unfold mbind, M_bind, bind.
    pose proof (check_dependency_settled acc d w H1) as Hr.
    destruct (check_dependency_world acc d w) as (Hpr & Hm & Hl & Hs).
    destruct (check_dependency acc d w) as [r w1]. simpl in *. subst r.
    destruct (IH dep post
                (acc ++ if Deps.found (modules w) d
                             (processes w [d; "--version"]
                                (length (spawned w)))
                        then [] else [d])%list w1 e) as (E1 & E2 & E3); trivial.
    + rewrite Hpr, Hm, (spawned_snoc_spawn w w1 _ Hs). exact H2.
    + rewrite Hpr, (spawned_snoc_spawn w w1 _ Hs). simpl.
      replace (S (length (spawned w) + length pre))%nat
        with (length (spawned w) + S (length pre))%nat by lia. exact Hp.
    + repeat split; trivial; try congruence.
      rewrite E3, Hs, <- app_assoc. reflexivity.
Qed.

(** A tool whose command cannot be started for another reason than not
    existing (a permission error, say) is not counted as missing: the
    error leaves [check_dependencies], nothing is logged, and the commands
    of the later tools are not started. *)
Theorem check_dependencies_stops_at_a_start_error :
  forall w pre dep post e,
    Deps.tools = (pre ++ dep :: post)%list ->
    Deps.all_settled (processes w) (modules w) (length (spawned w)) pre = true ->
    processes w [dep; "--version"] (length (spawned w) + length pre) =
      NotStarted e ->
    Deps.escapes e = true ->
    fst (check_dependencies w) = Raise e /\
    logged (snd (check_dependencies w)) = logged w /\
    syscalls (snd (check_dependencies w)) =
      (syscalls w ++
       map (fun dep => SysSpawn [dep; "--version"]) (pre ++ [dep]))%list.
Proof.
  intros w pre dep post e Htools Hpre Hp He.
  destruct (for_fold_check_dependency_raises pre dep post [] w e Hpre Hp He)
    as (E1 & E2 & E3).
  unfold check_dependencies, mbind, M_bind, bind.
  change ["bandit"; "flake8"; "pylint"; "pyre-check"] with Deps.tools.
  rewrite Htools.
  destruct (for_fold (pre ++ dep :: post) [] check_dependency w)
    as [[l|e'] w1]; simpl in *; [discriminate|].
  inversion E1; subst. repeat split; trivial.
Qed.

End DependenciesMore.

(** ** More on the orchestrator *)

Section OrchestratorMore.

Variable ast_parse : string -> option mod_.
Variable ast_unparse : mod_ -> string.

(** With a target that does not exist [main] logs it and exits with 1
    after the existence check, whatever the other options: no file is
    read or written, no artifact and no log appears. *)
Theorem main_stops_at_a_missing_target :
  forall args w,
    fs w !! target_file args = None ->
    exists w',
      main ast_parse ast_unparse args w = (Raise (SystemExit 1), w') /\
      fs w' = fs w /\
      syscalls w' = (syscalls w ++ [SysStat (target_file args)])%list /\
      logged w' =
        (logged w ++
         [(ERROR, [Lit "Target file not found: ";
                   FStr (target_file args)])])%list.
Proof.
  intros args w Hf. unfold main, mbind, M_bind, bind, os_path_exists.
  rewrite Hf. simpl. eexists. repeat split.
Qed.

(** With [--dependency_check], an accepted configuration and a missing
    tool, [main] exits with 1 after the four version commands; the list
    of missing tools is the one record logged, and [main] opens no file:
    the target is not read, no artifact and no log is opened. *)
Theorem main_exits_1_when_a_tool_is_missing :
  forall args w,
    is_Some (fs w !! target_file args) ->
    0 < iterations args ->
    in_unit_interval (threshold args) = true ->
    dependency_check args = true ->
    Deps.all_settled (processes w) (modules w) (length (spawned w))
      Deps.tools = true ->
    Deps.missing (processes w) (modules w) (length (spawned w)) Deps.tools
      <> [] ->
    exists w',
      main ast_parse ast_unparse args w = (Raise (SystemExit 1), w') /\
      syscalls w' =
        (syscalls w ++
         SysStat (target_file args)
         :: map (fun dep => SysSpawn [dep; "--version"]) Deps.tools)%list /\
      logged w' =
        (logged w ++
         [(ERROR, [Lit "Missing dependencies: ";
                   FStr (String.concat ", "
                           (Deps.missing (processes w) (modules w)
                              (length (spawned w)) Deps.tools))])])%list.
Proof.
  intros args w [c Hc] Hn Ht Hd Hran Hmiss.
  pose proof (check_dependencies_reports_the_missing_tools
                (add_syscall (SysStat (target_file args)) w)) as Hcheck.
  assert (Hsp : spawned (add_syscall (SysStat (target_file args)) w) =
                spawned w)
    by (apply (spawned_app_no_spawn w [_]); reflexivity).
  cbv zeta in Hcheck. rewrite Hsp in Hcheck.
  change (processes (add_syscall _ w)) with (processes w) in Hcheck.
  change (modules (add_syscall _ w)) with (modules w) in Hcheck.
  destruct (Hcheck Hran) as (w' & E & Hsys & Hlog). clear Hcheck.
  remember (Deps.missing (processes w) (modules w) (length (spawned w))
              Deps.tools) as absent eqn:Habsent.
  destruct absent as [|a l]; [contradiction|].
  unfold main, mbind, M_bind, bind, os_path_exists.
  rewrite Hc. simpl.
  destruct (Z.leb_spec (iterations args) 0) as [?|_]; [lia|].
  rewrite Ht, Hd. simpl.
  rewrite E. cbn [negb]. eexists. split; [reflexivity|].
  rewrite Hsys, Hlog. cbn [syscalls logged add_syscall].
  rewrite <- app_assoc. repeat split.
Qed.

(** Without [--dependency_check]: when the target cannot be read, or the
    artifact cannot be opened for writing, [main] logs the failure and
    exits with 1 before the harness runs: no log file appears and no file
    changes. *)
Theorem main_exits_1_when_instrumentation_fails :
  forall args w,
    is_Some (fs w !! target_file args) ->
    0 < iterations args ->
    in_unit_interval (threshold args) = true ->
    dependency_check args = false ->
    (target_file args ∈ read_denied w \/
     (exists code tree,
        fs w !! target_file args = Some code /\
        ast_parse code = Some tree /\
        fst (OsPath.splitext (target_file args)) +:+ "_instrumented.py"
          ∈ write_denied w)) ->
    exists w',
      main ast_parse ast_unparse args w = (Raise (SystemExit 1), w') /\
      fs w' = fs w /\
      last (logged w') =
        Some (ERROR, [Lit "Failed to instrument code. Exiting."]).
Proof.
  intros args w Hc Hn Ht Hd Hfail.
  rewrite (main_valid_eq _ _ args w Hc Hn Ht Hd). cbv zeta.
  rewrite instrument_code_eq. simpl fs. simpl read_denied.
  simpl write_denied. cbv zeta.
  destruct Hc as [c Hc]. rewrite Hc.
  destruct (bool_decide (target_file args ∈ read_denied w)) eqn:Hr.
  - simpl. eexists. split; [reflexivity|]. split; [reflexivity|].
    simpl. apply last_snoc.
  - destruct Hfail as [Hfail|(code & tree & Hcode & Hp & Hw)].
    + apply bool_decide_eq_false in Hr. contradiction.
    + rewrite Hc in Hcode. inversion Hcode; subst c. rewrite Hp.
      rewrite (bool_decide_eq_true_2 _ Hw). simpl.
      eexists. split; [reflexivity|]. split; [reflexivity|].
      simpl. apply last_snoc.
Qed.

(** Without [--dependency_check], with an accepted configuration: when
    [instrument_code] succeeds on the target and the output file can be
    opened, [main] returns normally and leaves the files as
    [instrument_code] leaves them, with the output file created or
    emptied on top (an output path that is the target or the artifact is
    thereby emptied). *)
Theorem main_hands_the_files_of_instrument_code_to_an_empty_log :
  forall args w path,
    0 < iterations args ->
    in_unit_interval (threshold args) = true ->
    dependency_check args = false ->
    fst (instrument_code ast_parse ast_unparse (target_file args) w) =
      Ok (Some path) ->
    output args ∉ write_denied w ->
    exists w',
      main ast_parse ast_unparse args w = (Ok tt, w') /\
      fs w' =
        <[output args := EmptyString]>
          (fs (snd (instrument_code ast_parse ast_unparse
                      (target_file args) w))).
Proof.
  intros args w path Hn Ht Hd Hok Hout.
  rewrite instrument_code_eq in Hok |- *. cbv zeta in Hok |- *.
  destruct (fs w !! target_file args) as [code|] eqn:Hc; [|discriminate].
  destruct (bool_decide (target_file args ∈ read_denied w)) eqn:Hr;
    [discriminate|].
  destruct (ast_parse code) as [tree|] eqn:Hp; [|discriminate].
  destruct (bool_decide (_ ∈ write_denied w)) eqn:Hw; [discriminate|].
  rewrite (main_valid_eq _ _ args w (ex_intro _ code Hc) Hn Ht Hd).
  cbv zeta. rewrite instrument_code_eq. simpl fs. simpl read_denied.
  simpl write_denied. rewrite Hc. cbv zeta. rewrite Hr, Hp, Hw.
  rewrite falsy_instrumented. simpl default.
  rewrite run_analysis_eq. simpl fs. simpl write_denied. cbv zeta.
  rewrite lookup_insert_eq.
  rewrite (bool_decide_eq_false_2 _ Hout).
  destruct (Z.ltb_spec 0 (iterations args)) as [_|?]; [|lia].
  eexists. split; reflexivity.
Qed.

End OrchestratorMore.

(** ** The properties above at the sample files *)

Lemma visit_tree_without_function_defs_witness :
  TimingVisitor.visit_tree Scene.constants_tree = Scene.constants_tree.
Proof.
  apply (visit_tree_without_function_defs_is_identity
           [Import ["os"];
            Assign [Name "LIMIT" Store] (Constant (ConstInt 3));
            ClassDef "Config" []
              [Assign [Name "debug" Store] (Constant (ConstBool false))] [];
            If (Name "LIMIT" Load)
              [Expr (Call (Name "print" Load) [Name "LIMIT" Load] [])] [Pass]]).
  reflexivity.
Defined.

Lemma instrument_code_stopped_early_witness :
  fs (snd (instrument_code Sample.parse Sample.unparse "broken.py"
             Sample.world0)) = fs Sample.world0 /\
  forall path,
    fst (instrument_code Sample.parse Sample.unparse "broken.py"
           Sample.world0) <> Ok (Some path).
Proof.
  apply (instrument_code_stopped_early_leaves_the_files Sample.parse
           Sample.unparse "broken.py" Sample.world0).
  right. right. left. exists Sample.broken_source.
  split; vm_compute; reflexivity.
Defined.


Lemma run_analysis_without_artifact_witness :
  exists w',
    run_analysis "gone_instrumented.py" 3 0x1.999999999999ap-5%float
      "timing_analysis.log" Sample.world0 = (Ok tt, w') /\
    fs w' = fs Sample.world0 /\
    syscalls w' =
      (syscalls Sample.world0 ++ [SysStat "gone_instrumented.py"])%list /\
    logged w' =
      (logged Sample.world0 ++
       [(ERROR, [Lit "Instrumented file not found: ";
                 FStr "gone_instrumented.py"])])%list.
Proof.
  apply (run_analysis_without_artifact_creates_no_log "gone_instrumented.py" 3
           0x1.999999999999ap-5%float "timing_analysis.log" Sample.world0).
  vm_compute. reflexivity.
Defined.

Lemma run_analysis_without_iterations_witness :
  exists w',
    run_analysis "add_instrumented.py" 0 0x1.999999999999ap-5%float
      "timing_analysis.log" Sample.world0 = (Ok tt, w') /\
    fs w' = <["timing_analysis.log" := EmptyString]> (fs Sample.world0) /\
    logged w' =
      (logged Sample.world0 ++
       [(INFO, [Lit "Analysis completed.  Results written to ";
                FStr "timing_analysis.log"])])%list.
Proof.
  apply (run_analysis_without_iterations_reports_completion
           "add_instrumented.py" 0 0x1.999999999999ap-5%float
           "timing_analysis.log" Sample.world0).
  - exists "stale". vm_compute. reflexivity.
  - lia.
  - by_decide.
Defined.

Lemma run_analysis_on_its_own_artifact_witness :
  fs (snd (run_analysis "add_instrumented.py" 3 0x1.999999999999ap-5%float
             "add_instrumented.py" Sample.world0)) !! "add_instrumented.py" =
  Some EmptyString.
Proof.
  apply (run_analysis_on_its_own_artifact_empties_it "add_instrumented.py" 3
           0x1.999999999999ap-5%float Sample.world0).
  - exists "stale". vm_compute. reflexivity.
  - by_decide.
Defined.

Lemma check_dependencies_reports_witness :
  let absent :=
    Deps.missing (processes Scene.world_tools) (modules Scene.world_tools)
      (length (spawned Scene.world_tools)) Deps.tools in
  exists w',
    check_dependencies Scene.world_tools =
      (Ok (match absent with [] => true | _ => false end), w') /\
    syscalls w' =
      (syscalls Scene.world_tools ++
       map (fun dep => SysSpawn [dep; "--version"]) Deps.tools)%list /\
    logged w' =
      (logged Scene.world_tools ++
       match absent with
       | [] => []
       | _ => [(ERROR, [Lit "Missing dependencies: ";
                        FStr (String.concat ", " absent)])]
       end)%list.
Proof.
  apply (check_dependencies_reports_the_missing_tools Scene.world_tools).
  vm_compute. reflexivity.
Defined.

(** In that world [bandit] and [pyre-check] are the missing ones, and the
    import of [pylint] has left its bytecode cache. *)
Example check_dependencies_sample_log :
  fst (check_dependencies Scene.world_tools) = Ok false /\
  logged (snd (check_dependencies Scene.world_tools)) =
    [(ERROR, [Lit "Missing dependencies: "; FStr "bandit, pyre-check"])] /\
  fs (snd (check_dependencies Scene.world_tools))
    !! "__pycache__/pylint.cpython-311.pyc" = Some "bytecode".
Proof. vm_compute. repeat split; reflexivity. Qed.

Lemma check_dependencies_stops_witness :
  fst (check_dependencies Scene.world_locked) =
    Raise (PermissionError "flake8") /\
  logged (snd (check_dependencies Scene.world_locked)) =
    logged Scene.world_locked /\
  syscalls (snd (check_dependencies Scene.world_locked)) =
    (syscalls Scene.world_locked ++
     map (fun dep => SysSpawn [dep; "--version"])
       (["bandit"] ++ ["flake8"]))%list.
Proof.
  apply (check_dependencies_stops_at_a_start_error Scene.world_locked
           ["bandit"] "flake8" ["pylint"; "pyre-check"]
           (PermissionError "flake8")); reflexivity.
Defined.

Lemma main_stops_at_a_missing_target_witness :
  exists w',
    main Sample.parse Sample.unparse
      {| target_file := "missing.py"; iterations := 3;
         threshold := 0x1.999999999999ap-5%float;
         output := "timing_analysis.log"; dependency_check := false |}
      Sample.world0 = (Raise (SystemExit 1), w') /\
    fs w' = fs Sample.world0 /\
    syscalls w' = (syscalls Sample.world0 ++ [SysStat "missing.py"])%list /\
    logged w' =
      (logged Sample.world0 ++
       [(ERROR, [Lit "Target file not found: "; FStr "missing.py"])])%list.
Proof.
  apply (main_stops_at_a_missing_target Sample.parse Sample.unparse
           {| target_file := "missing.py"; iterations := 3;
              threshold := 0x1.999999999999ap-5%float;
              output := "timing_analysis.log"; dependency_check := false |}
           Sample.world0).
  vm_compute. reflexivity.
Defined.

Lemma main_exits_1_when_a_tool_is_missing_witness :
  exists w',
    main Sample.parse Sample.unparse Scene.args_checked Scene.world_tools =
      (Raise (SystemExit 1), w') /\
    syscalls w' =
      (syscalls Scene.world_tools ++
       SysStat (target_file Scene.args_checked)
       :: map (fun dep => SysSpawn [dep; "--version"]) Deps.tools)%list /\
    logged w' =
      (logged Scene.world_tools ++
       [(ERROR, [Lit "Missing dependencies: ";
                 FStr (String.concat ", "
                         (Deps.missing (processes Scene.world_tools)
                            (modules Scene.world_tools)
                            (length (spawned Scene.world_tools))
                            Deps.tools))])])%list.
Proof.
  apply (main_exits_1_when_a_tool_is_missing Sample.parse Sample.unparse
           Scene.args_checked Scene.world_tools).
  - exists Sample.add_source. vm_compute. reflexivity.
  - simpl. lia.
  - vm_compute. reflexivity.
  - reflexivity.
  - vm_compute. reflexivity.
  - vm_compute. discriminate.
Defined.

Lemma main_exits_1_when_instrumentation_fails_witness :
  exists w',
    main Sample.parse Sample.unparse Sample.args0 Scene.world_readonly =
      (Raise (SystemExit 1), w') /\
    fs w' = fs Scene.world_readonly /\
    last (logged w') =
      Some (ERROR, [Lit "Failed to instrument code. Exiting."]).
Proof.
  apply (main_exits_1_when_instrumentation_fails Sample.parse Sample.unparse
           Sample.args0 Scene.world_readonly).
  - exists Sample.add_source. vm_compute. reflexivity.
  - simpl. lia.
  - vm_compute. reflexivity.
  - reflexivity.
  - right. exists Sample.add_source, Sample.add_tree.
    split; [vm_compute; reflexivity|]. split; [vm_compute; reflexivity|].
    by_decide.
Defined.

Lemma main_hands_the_files_witness :
  exists w',
    main Sample.parse Sample.unparse Sample.args0 Sample.world0 = (Ok tt, w') /\
    fs w' =
      <[output Sample.args0 := EmptyString]>
        (fs (snd (instrument_code Sample.parse Sample.unparse
                    (target_file Sample.args0) Sample.world0))).
Proof.
  apply (main_hands_the_files_of_instrument_code_to_an_empty_log
           Sample.parse Sample.unparse Sample.args0 Sample.world0
           "add_instrumented.py").
  - simpl. lia.
  - vm_compute. reflexivity.
  - reflexivity.
  - vm_compute. reflexivity.
  - by_decide.
Defined.
